(** * FillBot: the semantic form filler of [theBot.py]

    A shallow embedding of the class [SemanticFormFiller] and the
    verification of its matching, classification and fill logic.

    Modelling conventions.
    - Python [str] is [string]; [lower] and [strip] act on the ASCII range.
    - Similarity scores are Python floats obtained from [.item()]; only
      their order is used by the program, so they are rationals [Q] here.
      The literals [0.5] and [0.7] are [1#2] and [7#10]: no double lies
      strictly between the double nearest to 0.7 and 7/10, so the
      comparisons agree.
    - The sentence model and the browser driver are external: the model is
      the class [SentenceTransformer] below, the page is a snapshot in
      which the answer of the driver to a command depends on the element
      and on the arguments of the command.  Every driver command may raise.
    - Effects are the commands sent to the browser and the lines printed;
      a computation returns the list of its events together with its
      result or the exception it raised.  Exceptions are the subclasses of
      [Exception].
    - The profile maps field names to answers, both strings.  The body of
      the loop of [fill_form] is named [process_question].
    - [setup_driver] and [run] are embedded over the events of a session:
      the start of the browser is one call of [webdriver.Chrome] with the
      arguments of its options, and the console answers [input(text)]
      according to the text of the prompt. *)

From Stdlib Require Import String Ascii List Bool Arith PeanoNat QArith Lia.
Import ListNotations.
Close Scope Q_scope.
Local Open Scope list_scope.
Local Open Scope string_scope.

(** ** Python strings *)

Module Str.

(** The ASCII characters for which [str.isspace] holds. *)
Definition is_space (c : ascii) : bool :=
  let n := nat_of_ascii c in
  (((9 <=? n) && (n <=? 13)) || ((28 <=? n) && (n <=? 32)))%nat.

Definition lower_char (c : ascii) : ascii :=
  let n := nat_of_ascii c in
  if ((65 <=? n) && (n <=? 90))%nat then ascii_of_nat (n + 32) else c.

(** [s.lower()] *)
Fixpoint lower (s : string) : string :=
  match s with
  | EmptyString => EmptyString
  | String c s' => String (lower_char c) (lower s')
  end.

(** [s.lstrip()] *)
Fixpoint lstrip (s : string) : string :=
  match s with
  | EmptyString => EmptyString
  | String c s' => if is_space c then lstrip s' else s
  end.

(** [s.rstrip()] *)
Fixpoint rstrip (s : string) : string :=
  match s with
  | EmptyString => EmptyString
  | String c s' =>
      match rstrip s' with
      | EmptyString => if is_space c then EmptyString else String c EmptyString
      | t => String c t
      end
  end.

(** [s.strip()] *)
Definition strip (s : string) : string := rstrip (lstrip s).

(** [hay.startswith(needle)] *)
Fixpoint startswith (needle hay : string) : bool :=
  match needle, hay with
  | EmptyString, _ => true
  | String _ _, EmptyString => false
  | String a n', String b h' => Ascii.eqb a b && startswith n' h'
  end.

(** [needle in hay] *)
Fixpoint contains (needle hay : string) : bool :=
  startswith needle hay ||
  match hay with
  | EmptyString => false
  | String _ h' => contains needle h'
  end.

Definition digit (n : nat) : ascii := ascii_of_nat (48 + n mod 10).

Fixpoint digits (fuel n : nat) (acc : string) : string :=
  match fuel with
  | O => acc
  | S fuel' =>
      let acc' := String (digit n) acc in
      if (n <? 10)%nat then acc' else digits fuel' (n / 10) acc'
  end.

(** [str(n)] for a natural number *)
Definition of_nat (n : nat) : string := digits (S n) n EmptyString.

Fixpoint repeat0 (k : nat) (s : string) : string :=
  match k with
  | O => s
  | S k' => String "0" (repeat0 k' s)
  end.

(** [s.zfill(width)] for a string of digits *)
Definition zfill (width : nat) (s : string) : string :=
  repeat0 (width - String.length s) s.

End Str.

(** ** Exceptions and results *)

Inductive exn_class : Type :=
  | NoSuchElementException
  | StaleElementReferenceException
  | ElementNotInteractableException
  | InvalidElementStateException
  | InvalidSelectorException
  | JavascriptException
  | WebDriverException
  | ValueError
  | KeyError
  | EOFError.

Record exn : Type := Exn { exn_kind : exn_class; exn_msg : string }.

(** [str(e)] *)
Definition str_exn (e : exn) : string := exn_msg e.

Definition is_NoSuchElementException (e : exn) : bool :=
  match exn_kind e with
  | NoSuchElementException => true
  | _ => false
  end.

Inductive result (A : Type) : Type :=
  | Return (a : A)
  | Raise (e : exn).
Arguments Return {A} a.
Arguments Raise {A} e.

(** ** Python dictionaries: insertion ordered, string keys *)

Definition dict (V : Type) : Type := list (string * V).

Section Dict.
Context {V : Type}.

(** [d[k] = v]: an existing key keeps its position. *)
Fixpoint dict_set (d : dict V) (k : string) (v : V) : dict V :=
  match d with
  | [] => [(k, v)]
  | (k', v') :: d' =>
      if String.eqb k' k then (k', v) :: d' else (k', v') :: dict_set d' k v
  end.

(** [d[k]] *)
Fixpoint dict_get (d : dict V) (k : string) : result V :=
  match d with
  | [] => Raise (Exn KeyError ("'" ++ k ++ "'"))
  | (k', v) :: d' => if String.eqb k' k then Return v else dict_get d' k
  end.

(** [dict(pairs)] *)
Definition dict_of (pairs : list (string * V)) : dict V :=
  fold_left (fun d kv => dict_set d (fst kv) (snd kv)) pairs [].

(** [list(d.keys())] *)
Definition keys (d : dict V) : list string := map fst d.

(** [d.items()] *)
Definition items (d : dict V) : list (string * V) := d.

End Dict.

(** ** The sentence model *)

(** [SentenceTransformer.encode] with [convert_to_tensor=True] and
    [util.pytorch_cos_sim(a, b).item()]. *)
Class SentenceTransformer : Type := {
  tensor : Type;
  encode : string -> tensor;
  pytorch_cos_sim : tensor -> tensor -> Q
}.

Definition Qgt_bool (a b : Q) : bool := negb (Qle_bool a b).

(** ** The matcher *)

Record SemanticFormFiller `{SentenceTransformer} : Type := {
  form_data : dict string;
  field_embeddings : dict tensor
}.

Section Matcher.
Context `{model : SentenceTransformer}.

Definition create_field_embeddings (form_data : dict string) : dict tensor :=
  let field_names := keys form_data in
  let embeddings := map encode field_names in
  dict_of (combine field_names embeddings).

(** [__init__], given the content of [user_data.json]. *)
Definition init (user_data : dict string) : SemanticFormFiller :=
  {| form_data := user_data;
     field_embeddings := create_field_embeddings user_data |}.

(** [max(items, key=lambda x: x[1])] after its first item: a later item
    replaces the running maximum when its key is strictly greater. *)
Fixpoint max_from (best : string * Q) (l : list (string * Q)) : string * Q :=
  match l with
  | [] => best
  | x :: l' => max_from (if Qgt_bool (snd x) (snd best) then x else best) l'
  end.

Definition max_by_value (l : list (string * Q)) : result (string * Q) :=
  match l with
  | [] => Raise (Exn ValueError "max() arg is an empty sequence")
  | x :: l' => Return (max_from x l')
  end.

Definition similarities_of (question_embedding : tensor)
    (embs : dict tensor) : dict Q :=
  fold_left
    (fun similarities fe =>
       let similarity := pytorch_cos_sim question_embedding (snd fe) in
       dict_set similarities (fst fe) similarity)
    (items embs) [].

Definition find_best_match (self : SemanticFormFiller)
    (question_text : string) (threshold : Q) : result (option string) :=
  let question_embedding := encode question_text in
  let similarities := similarities_of question_embedding (field_embeddings self) in
  match max_by_value (items similarities) with
  | Raise e => Raise e
  | Return best_match =>
      if Qle_bool threshold (snd best_match)
      then Return (Some (fst best_match))
      else Return None
  end.

(** The default [threshold=0.5]. *)
Definition default_threshold : Q := 1 # 2.

End Matcher.

(** ** Effects: the commands sent to the browser and the console *)

Inductive script_arg : Type :=
  | ArgElement (id : nat)
  | ArgStr (s : string).

(** A command is recorded when it is issued, whether or not it succeeds.
    Queries ([find_element], [find_elements], [text]) are answered from the
    snapshot of the page and leave no event. *)
Inductive event : Type :=
  | Print (msg : string)
  | Sleep (ms : nat)
  | Click (id : nat)
  | Clear (id : nat)
  | SendKeys (id : nat) (keys : string)
  | ExecuteScript (script : string) (args : list script_arg)
  | Input.

(** A computation: the events it produced and its result. *)
Definition M (A : Type) : Type := list event * result A.

Definition ret {A} (a : A) : M A := ([], Return a).

Definition bind {A B} (m : M A) (f : A -> M B) : M B :=
  match m with
  | (w, Return a) => let (w', r) := f a in ((w ++ w')%list, r)
  | (w, Raise e) => (w, Raise e)
  end.

Definition lift {A} (r : result A) : M A := ([], r).

Definition emit (ev : event) : M unit := ([ev], Return tt).

(** [try: m  except <filter> as e: handler e] *)
Definition try_except_on {A} (filter : exn -> bool) (m : M A)
    (handler : exn -> M A) : M A :=
  match m with
  | (w, Raise e) =>
      if filter e then let (w', r) := handler e in ((w ++ w')%list, r)
      else (w, Raise e)
  | _ => m
  end.

(** [except:] and [except Exception as e:] *)
Definition try_except {A} (m : M A) (handler : exn -> M A) : M A :=
  try_except_on (fun _ => true) m handler.

(** [try: m  finally: cleanup] *)
Definition try_finally {A} (m : M A) (cleanup : M unit) : M A :=
  match m with
  | (w, r) =>
      match cleanup with
      | (w', Return _) => ((w ++ w')%list, r)
      | (w', Raise e) => ((w ++ w')%list, Raise e)
      end
  end.

Notation "x <- c1 ;; c2" := (bind c1 (fun x => c2))
  (at level 61, c1 at next level, right associativity).
Notation "c1 ;; c2" := (bind c1 (fun _ => c2))
  (at level 61, right associativity).

(** A block that may execute [return v] has type [M (option R)]:
    [Some v] when it returned [v], [None] when control falls out of it. *)
Definition return_ {R} (v : R) : M (option R) := ret (Some v).
Definition pass {R} : M (option R) := ret None.
Definition continue {R} : M (option R) := ret None.

Definition or_else {R} (block : M (option R)) (rest : M R) : M R :=
  r <- block ;;
  match r with
  | Some v => ret v
  | None => rest
  end.
Notation "c1 ;;? c2" := (or_else c1 c2)
  (at level 61, right associativity).

(** [for x in l: body x], where the body may [return]. *)
Fixpoint for_each {A R} (l : list A) (body : A -> M (option R)) : M (option R) :=
  match l with
  | [] => ret None
  | x :: l' =>
      r <- body x ;;
      match r with
      | Some v => ret (Some v)
      | None => for_each l' body
      end
  end.

(** [for x in l: s = body s x], a loop that updates local variables. *)
Fixpoint for_fold {A S} (l : list A) (s : S) (body : S -> A -> M S) : M S :=
  match l with
  | [] => ret s
  | x :: l' => s' <- body s x ;; for_fold l' s' body
  end.

(** [for x in l: body x] *)
Fixpoint for_ {A} (l : list A) (body : A -> M unit) : M unit :=
  match l with
  | [] => ret tt
  | x :: l' => body x ;; for_ l' body
  end.

Definition print (msg : string) : M unit := emit (Print msg).

(** [time.sleep], in milliseconds *)
Definition sleep (ms : nat) : M unit := emit (Sleep ms).

(** ** The page *)

(** A [WebElement]: what the driver answers for it. *)
#[local] Set Warnings "-register-all".
Inductive element : Type := Element {
  el_id : nat;
  el_text : result string;
  el_find_elements : string -> result (list element);
  el_find_element : string -> result element;
  el_click : result unit;
  el_clear : result unit;
  el_send_keys : string -> result unit
}.
#[local] Set Warnings "register-all".

(** The [WebDriver]: page-wide queries and the script escape hatch. *)
Record webdriver : Type := {
  drv_find_elements : string -> result (list element);
  drv_find_element : string -> result element;
  drv_execute_script : string -> list script_arg -> result unit
}.

(** [element.find_elements(By.XPATH, xpath)] *)
Definition find_elements (e : element) (xpath : string) : M (list element) :=
  lift (el_find_elements e xpath).

(** [element.find_element(By.XPATH, xpath)] *)
Definition find_element (e : element) (xpath : string) : M element :=
  lift (el_find_element e xpath).

(** [driver.find_elements(By.XPATH, xpath)] *)
Definition driver_find_elements (d : webdriver) (xpath : string) : M (list element) :=
  lift (drv_find_elements d xpath).

(** [driver.find_element(By.XPATH, xpath)] *)
Definition driver_find_element (d : webdriver) (xpath : string) : M element :=
  lift (drv_find_element d xpath).

(** [element.text] *)
Definition get_text (e : element) : M string := lift (el_text e).

(** [element.click()] *)
Definition click (e : element) : M unit :=
  emit (Click (el_id e)) ;; lift (el_click e).

(** [element.clear()] *)
Definition clear (e : element) : M unit :=
  emit (Clear (el_id e)) ;; lift (el_clear e).

(** [element.send_keys(keys)] *)
Definition send_keys (e : element) (keys : string) : M unit :=
  emit (SendKeys (el_id e) keys) ;; lift (el_send_keys e keys).

(** [driver.execute_script(script, *args)] *)
Definition execute_script (d : webdriver) (script : string)
    (args : list script_arg) : M unit :=
  emit (ExecuteScript script args) ;; lift (drv_execute_script d script args).

(** [Keys.TAB], the code point U+E004 in UTF-8 *)
Definition Keys_TAB : string :=
  String (ascii_of_nat 238) (String (ascii_of_nat 128) (String (ascii_of_nat 132) "")).

(** The truth value of a Python list. *)
Definition nonempty {A} (l : list A) : bool :=
  match l with
  | [] => false
  | _ :: _ => true
  end.

(** ** Widget classification *)

Definition get_field_type (element : element) : M string :=
  try_except
    (radios <- find_elements element ".//div[@role='radio']" ;;
     if nonempty radios then ret "radio" else
     checkboxes <- find_elements element ".//div[@role='checkbox']" ;;
     if nonempty checkboxes then ret "checkbox" else
     dates <- find_elements element ".//input[@type='date']" ;;
     if nonempty dates then ret "date" else
     listboxes <- find_elements element ".//div[@role='listbox']" ;;
     if nonempty listboxes then ret "dropdown" else
     textareas <- find_elements element ".//textarea" ;;
     if nonempty textareas then ret "textarea" else
     inputs <- find_elements element ".//input[@type='text']" ;;
     if nonempty inputs then ret "text" else
     ret "text")
    (fun _ => ret "text").

(** ** Dates: [datetime.strptime(s, "%m/%d/%Y")] and [strftime("%Y-%m-%d")]

    The two library calls are modelled for the one format the program
    uses, after the regular expression CPython builds for it:
    [(?P<m>1[0-2]|0[1-9]|[1-9])/(?P<d>3[0-1]|[1-2]\d|0[1-9]|[1-9]| [1-9])/(?P<Y>\d\d\d\d)],
    matched against the whole string.  A field is followed by [/], which
    is no digit, so trying the alternatives in order without backtracking
    gives the same match. *)

Module Date.

Record datetime : Type := { year : nat; month : nat; day : nat }.

Definition in_range (lo hi : nat) (c : ascii) : bool :=
  let n := nat_of_ascii c in ((lo <=? n) && (n <=? hi))%nat.

Definition is_digit (c : ascii) : bool := in_range 48 57 c.
Definition is_digit_1_9 (c : ascii) : bool := in_range 49 57 c.
Definition val (c : ascii) : nat := nat_of_ascii c - 48.

(** [1[0-2]|0[1-9]|[1-9]] *)
Definition match_m (s : string) : option (nat * string) :=
  match s with
  | EmptyString => None
  | String a EmptyString =>
      if is_digit_1_9 a then Some (val a, EmptyString) else None
  | String a (String b r) =>
      if Ascii.eqb a "1" && in_range 48 50 b then Some (10 + val b, r)
      else if Ascii.eqb a "0" && is_digit_1_9 b then Some (val b, r)
      else if is_digit_1_9 a then Some (val a, String b r)
      else None
  end.

(** [3[0-1]|[1-2]\d|0[1-9]|[1-9]| [1-9]] *)
Definition match_d (s : string) : option (nat * string) :=
  match s with
  | EmptyString => None
  | String a EmptyString =>
      if is_digit_1_9 a then Some (val a, EmptyString) else None
  | String a (String b r) =>
      if Ascii.eqb a "3" && in_range 48 49 b then Some (30 + val b, r)
      else if in_range 49 50 a && is_digit b then Some (10 * val a + val b, r)
      else if Ascii.eqb a "0" && is_digit_1_9 b then Some (val b, r)
      else if is_digit_1_9 a then Some (val a, String b r)
      else if Ascii.eqb a " " && is_digit_1_9 b then Some (val b, r)
      else None
  end.

(** [\d\d\d\d] *)
Definition match_Y (s : string) : option (nat * string) :=
  match s with
  | String a (String b (String c (String d r))) =>
      if is_digit a && is_digit b && is_digit c && is_digit d
      then Some (1000 * val a + 100 * val b + 10 * val c + val d, r)
      else None
  | _ => None
  end.

Definition match_slash (s : string) : option string :=
  match s with
  | String "/" r => Some r
  | _ => None
  end.

Definition is_leap (y : nat) : bool :=
  ((y mod 4 =? 0) && (negb (y mod 100 =? 0) || (y mod 400 =? 0)))%nat.

Definition days_in_month (y m : nat) : nat :=
  match m with
  | 2 => if is_leap y then 29 else 28
  | 4 | 6 | 9 | 11 => 30
  | _ => 31
  end.

Definition no_match (s : string) : exn :=
  Exn ValueError ("time data '" ++ s ++ "' does not match format '%m/%d/%Y'").

(** [datetime.strptime(s, "%m/%d/%Y")] *)
Definition strptime (s : string) : result datetime :=
  match match_m s with
  | None => Raise (no_match s)
  | Some (m, s1) =>
  match match_slash s1 with
  | None => Raise (no_match s)
  | Some s2 =>
  match match_d s2 with
  | None => Raise (no_match s)
  | Some (d, s3) =>
  match match_slash s3 with
  | None => Raise (no_match s)
  | Some s4 =>
  match match_Y s4 with
  | None => Raise (no_match s)
  | Some (y, EmptyString) =>
      if (y =? 0)%nat then Raise (Exn ValueError "year 0 is out of range")
      else if (d <=? days_in_month y m)%nat
      then Return {| year := y; month := m; day := d |}
      else Raise (Exn ValueError "day is out of range for month")
  | Some (_, rest) => Raise (Exn ValueError ("unconverted data remains: " ++ rest))
  end end end end end.

(** [d.strftime("%Y-%m-%d")].  CPython hands the format to the [strftime]
    of the C library; that of Linux writes [%Y] as the decimal year without
    padding (year 999 gives [999]), and [%m] and [%d] on two digits. *)
Definition strftime (d : datetime) : string :=
  Str.of_nat (year d) ++ "-" ++
  Str.zfill 2 (Str.of_nat (month d)) ++ "-" ++
  Str.zfill 2 (Str.of_nat (day d)).

End Date.

(** ** Fill strategies *)

Section Filler.
Context `{model : SentenceTransformer}.

(** The similarity of two texts, as both choice strategies compute it. *)
Definition text_similarity (option_text value : string) : Q :=
  pytorch_cos_sim (encode option_text) (encode value).

Definition fill_date_field (driver : webdriver) (element : element)
    (date_str : string) : M bool :=
  try_except
    (date_obj <- lift (Date.strptime date_str) ;;
     date_input <- find_element element ".//input[@type='date']" ;;
     let formatted_date := Date.strftime date_obj in
     clear date_input ;;
     try_except
       (send_keys date_input formatted_date ;;
        return_ true)
       (fun _ => pass) ;;?
     try_except
       (click date_input ;;
        sleep 500 ;;
        send_keys date_input (Str.of_nat (Date.year date_obj)) ;;
        send_keys date_input Keys_TAB ;;
        send_keys date_input (Str.zfill 2 (Str.of_nat (Date.month date_obj))) ;;
        send_keys date_input Keys_TAB ;;
        send_keys date_input (Str.zfill 2 (Str.of_nat (Date.day date_obj))) ;;
        return_ true)
       (fun _ => pass) ;;?
     try_except
       (execute_script driver "arguments[0].value = arguments[1];"
          [ArgElement (el_id date_input); ArgStr formatted_date] ;;
        return_ true)
       (fun _ => pass) ;;?
     print ("Warning: Could not set date " ++ date_str ++ " using any method") ;;
     ret false)
    (fun e =>
       print ("Error filling date field: " ++ str_exn e) ;;
       ret false).

(** The running best of the last loop: [(best_match, best_similarity)]. *)
Definition best_state : Type := option element * Q.

Definition fill_radio_field (driver : webdriver) (element : element)
    (value : string) : M bool :=
  try_except
    (radio_options <- find_elements element ".//div[@role='radio']" ;;
     for_each radio_options (fun option =>
       t <- get_text option ;;
       let option_text := Str.lower (Str.strip t) in
       if String.eqb (Str.lower value) option_text
       then click option ;; return_ true
       else continue) ;;?
     for_each radio_options (fun option =>
       t <- get_text option ;;
       let option_text := Str.lower (Str.strip t) in
       if Str.contains (Str.lower value) option_text
          || Str.contains option_text (Str.lower value)
       then click option ;; return_ true
       else continue) ;;?
     for_each radio_options (fun option =>
       t <- get_text option ;;
       let option_text := Str.strip t in
       let similarity := text_similarity option_text value in
       if Qgt_bool similarity (7 # 10)
       then click option ;; return_ true
       else continue) ;;?
     best <- for_fold radio_options (None, 0%Q) (fun (best : best_state) option =>
       t <- get_text option ;;
       let option_text := Str.strip t in
       let similarity := text_similarity option_text value in
       if Qgt_bool similarity (snd best)
       then ret (Some option, similarity)
       else ret best) ;;
     match best with
     | (Some best_match, best_similarity) =>
         if Qgt_bool best_similarity (1 # 2)
         then click best_match ;; ret true
         else ret false
     | (None, _) => ret false
     end)
    (fun e =>
       print ("Error filling radio field: " ++ str_exn e) ;;
       ret false).

Definition fill_dropdown_field (driver : webdriver) (element : element)
    (value : string) : M bool :=
  try_except
    (dropdown <- find_element element ".//div[@role='listbox']" ;;
     click dropdown ;;
     sleep 500 ;;
     options <- driver_find_elements driver "//div[@role='option']" ;;
     for_each options (fun option =>
       t <- get_text option ;;
       let option_text := Str.lower (Str.strip t) in
       if String.eqb (Str.lower value) option_text
       then click option ;; return_ true
       else continue) ;;?
     for_each options (fun option =>
       t <- get_text option ;;
       let option_text := Str.lower (Str.strip t) in
       if Str.contains (Str.lower value) option_text
          || Str.contains option_text (Str.lower value)
       then click option ;; return_ true
       else continue) ;;?
     for_each options (fun option =>
       t <- get_text option ;;
       let option_text := Str.strip t in
       let similarity := text_similarity option_text value in
       if Qgt_bool similarity (7 # 10)
       then click option ;; return_ true
       else continue) ;;?
     best <- for_fold options (None, 0%Q) (fun (best : best_state) option =>
       t <- get_text option ;;
       let option_text := Str.strip t in
       let similarity := text_similarity option_text value in
       if Qgt_bool similarity (snd best)
       then ret (Some option, similarity)
       else ret best) ;;
     match best with
     | (Some best_match, best_similarity) =>
         if Qgt_bool best_similarity (1 # 2)
         then click best_match ;; ret true
         else ret false
     | (None, _) => ret false
     end)
    (fun e =>
       print ("Error filling dropdown field: " ++ str_exn e) ;;
       ret false).

Definition fill_text_field (driver : webdriver) (element : element)
    (value : string) : M bool :=
  try_except
    (let input_types :=
       [ ".//input[@type='text']";
         ".//input";
         ".//textarea" ] in
     for_each input_types (fun input_type =>
       try_except_on is_NoSuchElementException
         (input_field <- find_element element input_type ;;
          clear input_field ;;
          send_keys input_field value ;;
          return_ true)
         (fun _ => continue)) ;;?
     ret false)
    (fun e =>
       print ("Error filling text field: " ++ str_exn e) ;;
       ret false).

End Filler.

(** ** Question discovery and container resolution *)

(** The newline of the messages that start with one. *)
Definition nl : string := String (ascii_of_nat 10) "".

(** [x in l] for a list of strings *)
Definition mem (x : string) (l : list string) : bool :=
  existsb (String.eqb x) l.

(** The truth value of a Python string. *)
Definition nonempty_str (s : string) : bool :=
  match s with
  | EmptyString => false
  | String _ _ => true
  end.

Definition find_field_by_text (driver : webdriver) (text : string)
    : M (option element) :=
  try_except
    (let xpath_patterns :=
       [ "//div[contains(@class, 'Qr7Oae')]//span[contains(text(), '" ++ text ++ "')]";
         "//div[contains(@class, 'geS5n')]//span[contains(text(), '" ++ text ++ "')]";
         "//div[contains(@class, 'M7eMe')]//span[contains(text(), '" ++ text ++ "')]";
         "//div[contains(@class, 'freebirdFormviewerViewItemsItemItem')]//span[contains(text(), '"
           ++ text ++ "')]" ] in
     for_each xpath_patterns (fun pattern =>
       try_except_on is_NoSuchElementException
         (element <- driver_find_element driver pattern ;;
          container <- find_element element ".//ancestor::div[contains(@class, 'geS5n')]" ;;
          return_ (Some container))
         (fun _ => continue)) ;;?
     ret None)
    (fun e =>
       print ("Error finding field by text '" ++ text ++ "': " ++ str_exn e) ;;
       ret None).

Definition get_form_questions (driver : webdriver) : M (list string) :=
  try_except
    (let question_patterns :=
       [ "//div[contains(@class, 'Qr7Oae')]//span[contains(@class, 'M7eMe')]";
         "//div[contains(@class, 'freebirdFormviewerViewItemsItemItem')]//span[contains(@class, 'M7eMe')]";
         "//div[contains(@class, 'geS5n')]//span[contains(@class, 'M7eMe')]" ] in
     for_fold question_patterns [] (fun questions pattern =>
       elements <- driver_find_elements driver pattern ;;
       for_fold elements questions (fun questions element =>
         t <- get_text element ;;
         let question_text := Str.strip t in
         if nonempty_str question_text && negb (mem question_text questions)
         then ret (questions ++ [question_text])%list
         else ret questions)))
    (fun e =>
       print ("Error extracting questions: " ++ str_exn e) ;;
       ret []).

(** ** The fill pass *)

Section Orchestrator.
Context `{model : SentenceTransformer}.

(** [if best_match:] holds for a field name that is not the empty string. *)
Definition truthy (best_match : option string) : option string :=
  match best_match with
  | Some EmptyString => None
  | other => other
  end.

(** The body of the loop over the questions. *)
Definition process_question (self : SemanticFormFiller) (driver : webdriver)
    (question : string) : M unit :=
  print (nl ++ "Processing question: " ++ question) ;;
  best_match <- lift (find_best_match self question default_threshold) ;;
  match truthy best_match with
  | Some best_match =>
      print ("Matched with field: " ++ best_match) ;;
      value <- lift (dict_get (form_data self) best_match) ;;
      field_container <- find_field_by_text driver question ;;
      match field_container with
      | Some field_container =>
          field_type <- get_field_type field_container ;;
          print ("Field type: " ++ field_type) ;;
          execute_script driver "arguments[0].scrollIntoView(true);"
            [ArgElement (el_id field_container)] ;;
          sleep 500 ;;
          success <-
            (if String.eqb field_type "date"
             then fill_date_field driver field_container value
             else if String.eqb field_type "radio"
             then fill_radio_field driver field_container value
             else if String.eqb field_type "dropdown"
             then fill_dropdown_field driver field_container value
             else fill_text_field driver field_container value) ;;
          (if success : bool
           then print ("Successfully filled with: " ++ value)
           else print ("Failed to fill field with value: " ++ value)) ;;
          sleep 500
      | None =>
          print ("Could not find input field for question: " ++ question)
      end
  | None =>
      print ("No matching field found for question: " ++ question)
  end.

(** [input()] reads a line from [stdin], or raises [EOFError]. *)
Definition input (stdin : result string) : M string :=
  emit Input ;; lift stdin.

Definition fill_form (self : SemanticFormFiller) (driver : webdriver)
    (stdin : result string) : M unit :=
  try_finally
    (try_except
       (print "Waiting for form to load..." ;;
        sleep 3000 ;;
        questions <- get_form_questions driver ;;
        print (nl ++ "Found " ++ Str.of_nat (List.length questions)
                  ++ " questions in the form") ;;
        for_ questions (process_question self driver) ;;
        print (nl ++ "Form filling completed!") ;;
        print "Please review the filled form and submit it manually." ;;
        print "Press Enter when you're done..." ;;
        _ <- input stdin ;;
        ret tt)
       (fun e => print ("Error filling form: " ++ str_exn e)))
    (sleep 2000).

End Orchestrator.

(** ** The session: start-up, navigation and shutdown *)

(** The browser that [webdriver.Chrome] returns: the driver of the page
    with [driver.get] and [driver.quit]. *)
Record chrome : Type := {
  chrome_driver : webdriver;
  chrome_get : string -> result unit;
  chrome_quit : result unit
}.

(** The events of a run: those of the fill pass and the lines printed,
    the prompts of [input(text)], the start of the browser with its
    arguments, the navigation and the shutdown. *)
Inductive session_event : Type :=
  | Pass (ev : event)
  | Prompt (text : string)
  | Start (arguments : list string)
  | Get (url : string)
  | Quit.

Definition Session (A : Type) : Type := list session_event * result A.

Definition s_ret {A} (a : A) : Session A := ([], Return a).

Definition s_raise {A} (e : exn) : Session A := ([], Raise e).

Definition s_bind {A B} (m : Session A) (f : A -> Session B) : Session B :=
  match m with
  | (w, Return a) => let (w', r) := f a in (app w w', r)
  | (w, Raise e) => (w, Raise e)
  end.

Definition s_emit {A} (ev : session_event) (r : result A) : Session A := ([ev], r).

(** The events of a computation of the pass, inside a run. *)
Definition of_pass {A} (m : M A) : Session A := (map Pass (fst m), snd m).

(** [try: m  except Exception as e: handler e] *)
Definition s_try_except {A} (m : Session A) (handler : exn -> Session A) : Session A :=
  match m with
  | (w, Raise e) => let (w', r) := handler e in (app w w', r)
  | _ => m
  end.

(** [try: m  finally: cleanup] *)
Definition s_try_finally {A} (m : Session A) (cleanup : Session unit) : Session A :=
  match m with
  | (w, r) =>
      match cleanup with
      | (w', Return _) => (app w w', r)
      | (w', Raise e) => (app w w', Raise e)
      end
  end.

Notation "x <~ c1 ;; c2" := (s_bind c1 (fun x => c2))
  (at level 61, c1 at next level, right associativity).
Notation "c1 ~;; c2" := (s_bind c1 (fun _ => c2))
  (at level 61, right associativity).

Definition s_print (msg : string) : Session unit := s_emit (Pass (Print msg)) (Return tt).

Section Run.
Context `{model : SentenceTransformer}.

(** The environment of a run: [webdriver.Chrome] given the arguments of
    its options, and the console, which answers [input(text)]. *)
Variable webdriver_Chrome : list string -> result chrome.
Variable console : string -> result string.

(** [input(text)] *)
Definition prompt (text : string) : Session string := s_emit (Prompt text) (console text).

Definition setup_driver : Session chrome :=
  s_try_except
    (let chrome_options :=
       [ "--start-maximized"; "--no-sandbox"; "--disable-dev-shm-usage" ] in
     driver <~ s_emit (Start chrome_options) (webdriver_Chrome chrome_options) ;;
     s_ret driver)
    (fun e =>
       s_print ("Error setting up Chrome driver: " ++ str_exn e) ~;;
       s_print "Please make sure Chrome is installed on your system." ~;;
       s_raise e).

Definition run (self : SemanticFormFiller) : Session unit :=
  line <~ prompt "Please enter the form URL: " ;;
  let form_url := Str.strip line in
  driver <~ setup_driver ;;
  s_try_finally
    (s_try_except
       (s_print (nl ++ "Navigating to form URL: " ++ form_url) ~;;
        s_emit (Get form_url) (chrome_get driver form_url) ~;;
        of_pass (fill_form self (chrome_driver driver) (console "")))
       (fun e => s_print ("An error occurred: " ++ str_exn e)))
    (prompt "Press Enter to close the browser..." ~;;
     s_emit Quit (chrome_quit driver)).

End Run.

(** * Specification-side definitions

    The notions the properties below are stated with.  They follow the
    wording of the specification and are compared with the program. *)

(** ** Matcher: the similarity of a question to a field name *)

Definition similarity `{SentenceTransformer} (question field_name : string) : Q :=
  pytorch_cos_sim (encode question) (encode field_name).

(** The dictionary maps distinct names among [names] to their embeddings. *)
Definition embeds_names `{SentenceTransformer} (names : list string)
    (d : dict tensor) : Prop :=
  NoDup (keys d) /\
  (forall k e, In (k, e) d -> e = encode k /\ In k names).

(** ** Classifier: the markers in priority order *)

Definition markers : list (string * string) :=
  [ (".//div[@role='radio']", "radio");
    (".//div[@role='checkbox']", "checkbox");
    (".//input[@type='date']", "date");
    (".//div[@role='listbox']", "dropdown");
    (".//textarea", "textarea");
    (".//input[@type='text']", "text") ].

(** First marker present wins; no marker, or a probe that raises, gives
    [text]. *)
Fixpoint classify_by_priority (container : element) (ms : list (string * string))
    : string :=
  match ms with
  | [] => "text"
  | (xpath, widget) :: ms' =>
      match el_find_elements container xpath with
      | Raise _ => "text"
      | Return [] => classify_by_priority container ms'
      | Return (_ :: _) => widget
      end
  end.

(** The probe for the marker finds nothing. *)
Definition probe_empty (container : element) (m : string * string) : Prop :=
  el_find_elements container (fst m) = Return [].

(** ** Text strategy: the first selector that locates an element *)

Definition text_selectors : list string :=
  [ ".//input[@type='text']"; ".//input"; ".//textarea" ].

Inductive probe : Type :=
  | NoneLocated
  | Located (input_field : element)
  | ProbeFailed (e : exn).

Fixpoint first_located (container : element) (selectors : list string) : probe :=
  match selectors with
  | [] => NoneLocated
  | selector :: rest =>
      match el_find_element container selector with
      | Return input_field => Located input_field
      | Raise e =>
          if is_NoSuchElementException e then first_located container rest
          else ProbeFailed e
      end
  end.

(** Clearing the element or writing the value raises. *)
Definition write_raises (input_field : element) (value : string) : Prop :=
  (exists e, el_clear input_field = Raise e) \/
  (exists e, el_send_keys input_field value = Raise e).

(** ** Date strategy: the three injection techniques *)






(** The date string [MM/DD/YYYY], and the value year-month-day: the year
    in decimal, month and day on two digits. *)
Definition month_day_year (y m d : nat) : string :=
  Str.zfill 2 (Str.of_nat m) ++ "/" ++ Str.zfill 2 (Str.of_nat d) ++ "/" ++
  Str.zfill 4 (Str.of_nat y).

Definition year_month_day (y m d : nat) : string :=
  Str.of_nat y ++ "-" ++ Str.zfill 2 (Str.of_nat m) ++ "-" ++
  Str.zfill 2 (Str.of_nat d).

(** ** Choice strategies: the four stages *)

(** The text of the option can be read. *)
Definition readable (o : element) : Prop := exists t, el_text o = Return t.

(** The visible text of an option, stripped as the strategies strip it. *)
Definition option_text (o : element) : string :=
  match el_text o with
  | Return t => Str.strip t
  | Raise _ => ""
  end.

(** The computation [m] preceded by the events [prefix]. *)
Definition after {A} (prefix : list event) (m : M A) : M A :=
  (app prefix (fst m), snd m).

Section ChoiceStages.
Context `{model : SentenceTransformer}.

Definition equals_ignoring_case (value : string) (o : element) : bool :=
  String.eqb (Str.lower value) (Str.lower (option_text o)).

Definition contains_ignoring_case (value : string) (o : element) : bool :=
  Str.contains (Str.lower value) (Str.lower (option_text o))
  || Str.contains (Str.lower (option_text o)) (Str.lower value).

Definition score (value : string) (o : element) : Q :=
  text_similarity (option_text o) value.

Definition confident (value : string) (o : element) : bool :=
  Qgt_bool (score value o) (7 # 10).

Definition best_from (value : string) (best : best_state) (options : list element)
    : best_state :=
  fold_left
    (fun best o =>
       if Qgt_bool (score value o) (snd best) then (Some o, score value o) else best)
    options best.

Definition best_above_floor (value : string) (options : list element)
    : option element :=
  match best_from value (None, 0%Q) options with
  | (Some o, s) => if Qgt_bool s (1 # 2) then Some o else None
  | (None, _) => None
  end.

(** Each stage looks at all the options before the next stage starts. *)
Definition select_by_stages (value : string) (options : list element)
    : option element :=
  match find (equals_ignoring_case value) options with
  | Some o => Some o
  | None =>
  match find (contains_ignoring_case value) options with
  | Some o => Some o
  | None =>
  match find (confident value) options with
  | Some o => Some o
  | None => best_above_floor value options
  end end end.

(** The selected option is clicked; a click that raises is reported. *)
Definition select_outcome (label : string) (selected : option element) : M bool :=
  match selected with
  | None => ([], Return false)
  | Some o =>
      match el_click o with
      | Return _ => ([Click (el_id o)], Return true)
      | Raise x =>
          ([Click (el_id o);
            Print ("Error filling " ++ label ++ " field: " ++ str_exn x)],
           Return false)
      end
  end.

(** [choice_run driver container value prefix label options run]: [run] is
    a choice strategy applied to a container that presents [options], after
    the events [prefix]. *)
Inductive choice_run (driver : webdriver) (container : element) (value : string)
    : list event -> string -> list element -> M bool -> Prop :=
  | radio_run options :
      el_find_elements container ".//div[@role='radio']" = Return options ->
      choice_run driver container value [] "radio" options
        (fill_radio_field driver container value)
  | dropdown_run dropdown options :
      el_find_element container ".//div[@role='listbox']" = Return dropdown ->
      el_click dropdown = Return tt ->
      drv_find_elements driver "//div[@role='option']" = Return options ->
      choice_run driver container value
        [Click (el_id dropdown); Sleep 500] "dropdown" options
        (fill_dropdown_field driver container value).

End ChoiceStages.

(** ** Fill pass *)

(** The computation returns: it does not propagate an exception. *)
Definition returns {A} (m : M A) : Prop := exists w a, m = (w, Return a).

Definition pass_header (discovery : list event) (n : nat) : list event :=
  app [Print "Waiting for form to load..."; Sleep 3000]
    (app discovery
       [Print (nl ++ "Found " ++ Str.of_nat n ++ " questions in the form")]).

Definition pass_footer (stdin : result string) : list event :=
  app [Print (nl ++ "Form filling completed!");
       Print "Please review the filled form and submit it manually.";
       Print "Press Enter when you're done...";
       Input]
    (app match stdin with
         | Return _ => []
         | Raise e => [Print ("Error filling form: " ++ str_exn e)]
         end
       [Sleep 2000]).

(** ** Question discovery and container resolution *)

Definition question_patterns : list string :=
  [ "//div[contains(@class, 'Qr7Oae')]//span[contains(@class, 'M7eMe')]";
    "//div[contains(@class, 'freebirdFormviewerViewItemsItemItem')]//span[contains(@class, 'M7eMe')]";
    "//div[contains(@class, 'geS5n')]//span[contains(@class, 'M7eMe')]" ].

(** The elements the three patterns find, pattern after pattern. *)
Definition question_elements (d : webdriver) : list element :=
  flat_map
    (fun pattern =>
       match drv_find_elements d pattern with
       | Return elements => elements
       | Raise _ => []
       end)
    question_patterns.


Definition ancestor_xpath : string := ".//ancestor::div[contains(@class, 'geS5n')]".

Definition field_patterns (text : string) : list string :=
  [ "//div[contains(@class, 'Qr7Oae')]//span[contains(text(), '" ++ text ++ "')]";
    "//div[contains(@class, 'geS5n')]//span[contains(text(), '" ++ text ++ "')]";
    "//div[contains(@class, 'M7eMe')]//span[contains(text(), '" ++ text ++ "')]";
    "//div[contains(@class, 'freebirdFormviewerViewItemsItemItem')]//span[contains(text(), '"
      ++ text ++ "')]" ].

(** The container of the first pattern whose label and ancestor are both
    found; a lookup that raises anything but [NoSuchElementException] ends
    the search. *)
Fixpoint first_container (d : webdriver) (patterns : list string) : probe :=
  match patterns with
  | [] => NoneLocated
  | pattern :: rest =>
      match drv_find_element d pattern with
      | Return label =>
          match el_find_element label ancestor_xpath with
          | Return container => Located container
          | Raise e =>
              if is_NoSuchElementException e then first_container d rest
              else ProbeFailed e
          end
      | Raise e =>
          if is_NoSuchElementException e then first_container d rest
          else ProbeFailed e
      end
  end.

(** ** Dispatch on the widget type *)

Definition strategy_for `{SentenceTransformer} (field_type : string)
    : webdriver -> element -> string -> M bool :=
  if String.eqb field_type "date" then fill_date_field
  else if String.eqb field_type "radio" then fill_radio_field
  else if String.eqb field_type "dropdown" then fill_dropdown_field
  else fill_text_field.

(** The line printed after a fill. *)
Definition fill_report (success : bool) (value : string) : event :=
  if success then Print ("Successfully filled with: " ++ value)
  else Print ("Failed to fill field with value: " ++ value).

(** ** Further notions: discovery, resolution, dates, clicks, the run *)

(** One step of the collection of the questions: a text that is not empty
    and not yet collected is appended. *)
Definition add_question (questions : list string) (question_text : string)
    : list string :=
  if nonempty_str question_text && negb (mem question_text questions)
  then (questions ++ [question_text])%list
  else questions.

(** The body of the inner loop of [get_form_questions]. *)
Definition scan (questions : list string) (element : element) : M (list string) :=
  t <- get_text element ;;
  let question_text := Str.strip t in
  if nonempty_str question_text && negb (mem question_text questions)
  then ret (questions ++ [question_text])%list
  else ret questions.

(** Each of the three page-wide lookups returns. *)
Definition lookups_return (d : webdriver) : Prop :=
  forall pattern, In pattern question_patterns ->
    exists elements, drv_find_elements d pattern = Return elements.

(** What [find_field_by_text] gives for the outcome of the search. *)
Definition container_outcome (text : string) (p : probe) : M (option element) :=
  match p with
  | NoneLocated => ([], Return None)
  | Located container => ([], Return (Some container))
  | ProbeFailed e =>
      ([Print ("Error finding field by text '" ++ text ++ "': " ++ str_exn e)],
       Return None)
  end.

Definition scroll_script : string := "arguments[0].scrollIntoView(true);".

(** The elements clicked, in order. *)
Definition clicks (w : list event) : list nat :=
  flat_map (fun ev => match ev with Click id => [id] | _ => [] end) w.

(** The event is a command sent to the page. *)
Definition is_command (ev : event) : bool :=
  match ev with
  | Click _ | Clear _ | SendKeys _ _ | ExecuteScript _ _ => true
  | Print _ | Sleep _ | Input => false
  end.

(** A calendar date with a year on four digits. *)
Definition valid_date (y m d : nat) : Prop :=
  1 <= y < 10 * 1000 /\ 1 <= m <= 12 /\ 1 <= d <= Date.days_in_month y m.

(** The value [YYYY-MM-DD], the year padded to four digits. *)
Definition yyyy_mm_dd (y m d : nat) : string :=
  Str.zfill 4 (Str.of_nat y) ++ "-" ++ Str.zfill 2 (Str.of_nat m) ++ "-" ++
  Str.zfill 2 (Str.of_nat d).

(** The date string [M/D/YYYY], month and day without leading zero. *)
Definition month_day_year_plain (y m d : nat) : string :=
  Str.of_nat m ++ "/" ++ Str.of_nat d ++ "/" ++ Str.zfill 4 (Str.of_nat y).

Definition chrome_arguments : list string :=
  [ "--start-maximized"; "--no-sandbox"; "--disable-dev-shm-usage" ].

Definition url_prompt : string := "Please enter the form URL: ".

Definition close_prompt : string := "Press Enter to close the browser...".

(** What a run does between the start of the browser and its shutdown:
    the navigation, then the fill pass or the report of the failed
    navigation. *)
Definition session_body `{SentenceTransformer} (console : string -> result string)
    (self : SemanticFormFiller) (driver : chrome) (form_url : string)
    : list session_event :=
  Pass (Print (nl ++ "Navigating to form URL: " ++ form_url)) ::
  Get form_url ::
  match chrome_get driver form_url with
  | Return _ => map Pass (fst (fill_form self (chrome_driver driver) (console "")))
  | Raise e => [Pass (Print ("An error occurred: " ++ str_exn e))]
  end.

(** * Sample models, profiles and pages *)

Module Examples.

Definition no_such_element {A} : result A :=
  Raise (Exn NoSuchElementException "no such element").

Definition not_interactable {A} : result A :=
  Raise (Exn ElementNotInteractableException "element not interactable").

(** A sentence model given by a symmetric table of similarities: a text is
    its own embedding and is at similarity 1 of itself. *)
Fixpoint table_sim (table : list (string * string * Q)) (a b : string) : Q :=
  match table with
  | [] => 0%Q
  | (x, y, s) :: table' =>
      if (String.eqb a x && String.eqb b y) || (String.eqb a y && String.eqb b x)
      then s
      else table_sim table' a b
  end.

Definition table_model (table : list (string * string * Q)) : SentenceTransformer :=
  {| tensor := string;
     encode := fun s => s;
     pytorch_cos_sim := fun a b => if String.eqb a b then 1%Q else table_sim table a b |}.

Definition sample_model : SentenceTransformer :=
  table_model
    [ ("What is your full name?", "Full Name", (8 # 10)%Q);
      ("What is your full name?", "Birth Date", (1 # 10)%Q);
      ("Pick a color", "Favorite Color", (3 # 4)%Q);
      ("Crimson", "Red", (9 # 10)%Q);
      ("Vermillion", "Red", (6 # 10)%Q);
      ("Azure", "Red", (2 # 10)%Q) ].

Definition sample_profile : dict string :=
  [ ("Full Name", "Ada Lovelace");
    ("Birth Date", "12/10/1815");
    ("Favorite Color", "Red") ].

Definition sample_filler : @SemanticFormFiller sample_model :=
  @init sample_model sample_profile.

(** Elements: the sub-elements are listed by XPath; [find_element] gives
    the first one or raises [NoSuchElementException]. *)
Fixpoint assoc {A} (k : string) (l : list (string * A)) : option A :=
  match l with
  | [] => None
  | (k', a) :: l' => if String.eqb k' k then Some a else assoc k l'
  end.

Definition children (kids : list (string * list element)) (xpath : string)
    : list element :=
  match assoc xpath kids with
  | Some l => l
  | None => []
  end.

Definition first_child (kids : list (string * list element)) (xpath : string)
    : result element :=
  match children kids xpath with
  | [] => no_such_element
  | e :: _ => Return e
  end.

Definition node (id : nat) (text : string) (kids : list (string * list element))
    : element :=
  {| el_id := id;
     el_text := Return text;
     el_find_elements := fun xpath => Return (children kids xpath);
     el_find_element := first_child kids;
     el_click := Return tt;
     el_clear := Return tt;
     el_send_keys := fun _ => Return tt |}.

Definition with_clear (r : result unit) (e : element) : element :=
  {| el_id := el_id e;
     el_text := el_text e;
     el_find_elements := el_find_elements e;
     el_find_element := el_find_element e;
     el_click := el_click e;
     el_clear := r;
     el_send_keys := el_send_keys e |}.

Definition with_send_keys (f : string -> result unit) (e : element) : element :=
  {| el_id := el_id e;
     el_text := el_text e;
     el_find_elements := el_find_elements e;
     el_find_element := el_find_element e;
     el_click := el_click e;
     el_clear := el_clear e;
     el_send_keys := f |}.

(** A driver for a page without page-wide matches. *)
Definition blank_driver : webdriver :=
  {| drv_find_elements := fun _ => Return [];
     drv_find_element := fun _ => no_such_element;
     drv_execute_script := fun _ _ => Return tt |}.

(** Choice widgets. *)
Definition crimson : element := node 11 "Crimson" [].
Definition reddish : element := node 12 "Reddish" [].
Definition red : element := node 13 " RED " [].
Definition color_options : list element := [crimson; reddish; red].

Definition color_radio : element :=
  node 10 "" [ (".//div[@role='radio']", color_options) ].

Definition vermillion : element := node 21 "Vermillion" [].
Definition azure : element := node 22 "Azure" [].

Definition shade_radio : element :=
  node 20 "" [ (".//div[@role='radio']", [vermillion; azure]) ].

Definition listbox : element := node 71 "" [].

Definition shade_dropdown : element :=
  node 70 "" [ (".//div[@role='listbox']", [listbox]) ].

Definition shade_options : list element := [vermillion; azure].

Definition shade_driver : webdriver :=
  {| drv_find_elements := fun xpath =>
       if String.eqb xpath "//div[@role='option']"
       then Return shade_options else Return [];
     drv_find_element := fun _ => no_such_element;
     drv_execute_script := fun _ _ => Return tt |}.

(** The radio strategy on the colors and the dropdown strategy on the
    shades, for the value Red. *)
Definition colors_fill : M bool :=
  @fill_radio_field sample_model blank_driver color_radio "Red".

Definition shades_fill : M bool :=
  @fill_dropdown_field sample_model shade_driver shade_dropdown "Red".

(** A container with a radio marker and a text input. *)
Definition radio_and_text : element :=
  node 30 ""
    [ (".//div[@role='radio']", [node 31 "Yes" []]);
      (".//input[@type='text']", [node 32 "" []]) ].

(** A container whose listbox probe raises. *)
Definition stale_container : element :=
  {| el_id := 33;
     el_text := Return "";
     el_find_elements := fun xpath =>
       if String.eqb xpath ".//div[@role='listbox']"
       then Raise (Exn StaleElementReferenceException "stale element reference")
       else Return [];
     el_find_element := fun _ => no_such_element;
     el_click := Return tt;
     el_clear := Return tt;
     el_send_keys := fun _ => Return tt |}.



Definition picky_date_input : element :=
  with_send_keys
    (fun keys => if String.eqb keys "2024-03-07" then not_interactable else Return tt)
    (node 43 "" []).

Definition picky_date : element :=
  node 42 "" [ (".//input[@type='date']", [picky_date_input]) ].

(** Text widgets: a plain text input; a hidden input found by [.//input]
    before the textarea; a container without any input. *)
Definition text_input : element := node 61 "" [].

Definition plain_text : element :=
  node 60 "" [ (".//input[@type='text']", [text_input]); (".//input", [text_input]) ].

Definition hidden_input : element := with_clear not_interactable (node 51 "" []).

Definition hidden_first : element :=
  node 50 "" [ (".//input", [hidden_input]); (".//textarea", [node 52 "" []]) ].

Definition no_input : element := node 64 "" [].

(** A form with two questions. *)
Definition name_question : string := "What is your full name?".
Definition color_question : string := "Pick a color".

Definition question_xpath : string :=
  "//div[contains(@class, 'Qr7Oae')]//span[contains(@class, 'M7eMe')]".

Definition label_xpath (text : string) : string :=
  "//div[contains(@class, 'Qr7Oae')]//span[contains(text(), '" ++ text ++ "')]".

Definition label (id : nat) (text : string) (container : element) : element :=
  {| el_id := id;
     el_text := Return text;
     el_find_elements := fun _ => Return [];
     el_find_element := fun xpath =>
       if String.eqb xpath ".//ancestor::div[contains(@class, 'geS5n')]"
       then Return container else no_such_element;
     el_click := Return tt;
     el_clear := Return tt;
     el_send_keys := fun _ => Return tt |}.

Definition form_page (name_container : element) (scroll : result unit) : webdriver :=
  let name_label := label 100 name_question name_container in
  let color_label := label 110 color_question color_radio in
  {| drv_find_elements := fun xpath =>
       if String.eqb xpath question_xpath
       then Return [name_label; color_label] else Return [];
     drv_find_element := fun xpath =>
       if String.eqb xpath (label_xpath name_question) then Return name_label
       else if String.eqb xpath (label_xpath color_question) then Return color_label
       else no_such_element;
     drv_execute_script := fun script _ =>
       if String.eqb script "arguments[0].scrollIntoView(true);"
       then scroll else Return tt |}.

(** A profile with two field names at the same similarity of a question,
    and a field with an empty name. *)
Definition tie_model : SentenceTransformer :=
  table_model
    [ ("Your name?", "Name", (9 # 10)%Q);
      ("Your name?", "Full Name", (9 # 10)%Q);
      ("Your name?", "", (95 # 100)%Q) ].

Definition tie_profile : dict string :=
  [ ("Age", "36"); ("Name", "Ada"); ("Full Name", "Ada Lovelace") ].

Definition nameless_profile : dict string :=
  [ ("Name", "Ada"); ("", "nobody") ].

(** A container with a checkbox marker and no input. *)
Definition consent_box : element :=
  node 80 "" [ (".//div[@role='checkbox']", [node 81 "I agree" []]) ].

(** A date input that takes what is typed. *)
Definition open_date_input : element := node 45 "" [].

Definition open_date : element :=
  node 44 "" [ (".//input[@type='date']", [open_date_input]) ].

(** A page whose second lookup of questions raises. *)
Definition broken_page : webdriver :=
  {| drv_find_elements := fun xpath =>
       if String.eqb xpath question_xpath
       then Return [label 100 name_question plain_text]
       else Raise (Exn WebDriverException "disconnected");
     drv_find_element := fun _ => no_such_element;
     drv_execute_script := fun _ _ => Return tt |}.

(** A browser on the form with two questions, and consoles. *)
Definition sample_chrome (get : result unit) : chrome :=
  {| chrome_driver := form_page plain_text (Return tt);
     chrome_get := fun _ => get;
     chrome_quit := Return tt |}.

Definition form_url : string := "https://forms.example/f1".

Definition sample_console (text : string) : result string :=
  if String.eqb text url_prompt then Return ("  " ++ form_url ++ " ")
  else Return "".

Definition closed_console (text : string) : result string :=
  if String.eqb text url_prompt then Return form_url
  else Raise (Exn EOFError "EOF when reading a line").

End Examples.

(** * Facts *)

(** ** Rational comparisons *)

Lemma Qgt_bool_true (a b : Q) : Qgt_bool a b = true <-> (b < a)%Q.
Proof.
  unfold Qgt_bool. rewrite negb_true_iff. split; intros H.
  - apply Qnot_le_lt. intros Hle. apply Qle_bool_iff in Hle. congruence.
  - destruct (Qle_bool a b) eqn:E; [|reflexivity].
    apply Qle_bool_iff in E. exfalso. exact (Qlt_not_le _ _ H E).
Qed.

Lemma Qgt_bool_false (a b : Q) : Qgt_bool a b = false <-> (a <= b)%Q.
Proof. unfold Qgt_bool. rewrite negb_false_iff. apply Qle_bool_iff. Qed.

(** ** Dictionaries *)

Section DictFacts.
Context {V : Type}.
Implicit Types (d : dict V) (k : string) (v : V).

Lemma dict_set_fresh d k v :
  ~ In k (keys d) -> dict_set d k v = (d ++ [(k, v)])%list.
Proof.
  induction d as [|[k' v'] d IH]; simpl; intros H; [reflexivity|].
  destruct (String.eqb_spec k' k) as [->|Hne].
  - exfalso. apply H. now left.
  - rewrite IH; [reflexivity|]. intros Hin. apply H. now right.
Qed.

Lemma dict_set_keys_in d k v :
  In k (keys d) -> keys (dict_set d k v) = keys d.
Proof.
  induction d as [|[k' v'] d IH]; simpl; intros H; [contradiction|].
  destruct (String.eqb_spec k' k) as [->|Hne]; simpl; [reflexivity|].
  f_equal. apply IH. destruct H as [H|H]; [congruence|exact H].
Qed.

Lemma dict_set_keys d k v :
  keys (dict_set d k v)
  = if in_dec string_dec k (keys d) then keys d else (keys d ++ [k])%list.
Proof.
  destruct (in_dec string_dec k (keys d)) as [H|H].
  - now apply dict_set_keys_in.
  - rewrite dict_set_fresh by exact H. unfold keys. now rewrite map_app.
Qed.

Lemma dict_set_NoDup d k v : NoDup (keys d) -> NoDup (keys (dict_set d k v)).
Proof.
  intros H. rewrite dict_set_keys.
  destruct (in_dec string_dec k (keys d)) as [Hi|Hi]; [exact H|].
  apply NoDup_app; [exact H| constructor; [intros []|constructor] |].
  intros x Hx [<-|[]]. exact (Hi Hx).
Qed.

Lemma dict_set_In d k v k0 v0 :
  In (k0, v0) (dict_set d k v) -> (k0 = k /\ v0 = v) \/ In (k0, v0) d.
Proof.
  induction d as [|[k' v'] d IH]; simpl.
  - intros [H|[]]. left. now inversion H.
  - destruct (String.eqb_spec k' k) as [->|Hne]; simpl.
    + intros [H|H]; [left; now inversion H | right; now right].
    + intros [H|H]; [right; now left|].
      destruct (IH H) as [?|?]; [now left|right; now right].
Qed.

Lemma dict_get_In d k :
  In k (keys d) -> exists v, dict_get d k = Return v /\ In (k, v) d.
Proof.
  induction d as [|[k' v'] d IH]; simpl; intros H; [contradiction|].
  destruct (String.eqb_spec k' k) as [->|Hne].
  - exists v'. split; [reflexivity|now left].
  - destruct H as [H|H]; [congruence|]. destruct (IH H) as (v & Hg & Hi).
    exists v. split; [exact Hg|now right].
Qed.

End DictFacts.

(** ** The cached embeddings and the similarity map *)

Section MatcherFacts.
Context `{model : SentenceTransformer}.

Lemma embed_fold names (l : list string) (d : dict tensor) :
  incl l names -> embeds_names names d ->
  let d' := fold_left (fun d kv => dict_set d (fst kv) (snd kv))
                      (combine l (map encode l)) d in
  embeds_names names d' /\ (forall k, In k (keys d) \/ In k l -> In k (keys d')).
Proof.
  revert d. induction l as [|a l IH]; simpl; intros d Hincl Hd.
  - split; [exact Hd|]. intros k [H|[]]. exact H.
  - assert (Hd' : embeds_names names (dict_set d a (encode a))).
    { destruct Hd as [Hn He]. split; [now apply dict_set_NoDup|].
      intros k e Hin. apply dict_set_In in Hin. destruct Hin as [[-> ->]|Hin].
      - split; [reflexivity|]. apply Hincl. now left.
      - now apply He. }
    destruct (IH (dict_set d a (encode a))) as [H1 H2].
    { intros x Hx. apply Hincl. now right. }
    { exact Hd'. }
    split; [exact H1|]. intros k Hk. apply H2.
    rewrite dict_set_keys. destruct (in_dec string_dec a (keys d)) as [Ha|Ha].
    + destruct Hk as [Hk|[<-|Hk]]; [now left|now left|now right].
    + destruct Hk as [Hk|[<-|Hk]]; [left|left|now right];
        apply in_or_app; [now left|right; now left].
Qed.

Lemma create_field_embeddings_spec (data : dict string) :
  embeds_names (keys data) (create_field_embeddings data) /\
  (forall k, In k (keys data) -> In k (keys (create_field_embeddings data))).
Proof.
  unfold create_field_embeddings, dict_of.
  destruct (embed_fold (keys data) (keys data) []) as [H1 H2].
  - apply incl_refl.
  - split; [constructor|]. intros k e [].
  - split; [exact H1|]. intros k Hk. apply H2. now right.
Qed.

Lemma similarities_fold (qe : tensor) (l : dict tensor) (acc : dict Q) :
  NoDup (keys acc ++ keys l) ->
  fold_left (fun sims fe => dict_set sims (fst fe) (pytorch_cos_sim qe (snd fe))) l acc
  = (acc ++ map (fun fe => (fst fe, pytorch_cos_sim qe (snd fe))) l)%list.
Proof.
  revert acc. induction l as [|[k e] l IH]; simpl; intros acc H.
  - now rewrite app_nil_r.
  - rewrite dict_set_fresh.
    + rewrite IH.
      * now rewrite <- app_assoc.
      * unfold keys in *. rewrite map_app. simpl. rewrite <- app_assoc. exact H.
    + apply NoDup_remove_2 in H. intros Hin. apply H. apply in_or_app. now left.
Qed.

Lemma similarities_of_map (qe : tensor) (embs : dict tensor) :
  NoDup (keys embs) ->
  similarities_of qe embs = map (fun fe => (fst fe, pytorch_cos_sim qe (snd fe))) embs.
Proof.
  intros H. unfold similarities_of, items. now rewrite similarities_fold.
Qed.

Lemma max_from_spec (best : string * Q) (l : list (string * Q)) :
  In (max_from best l) (best :: l) /\
  (forall y, In y (best :: l) -> (snd y <= snd (max_from best l))%Q).
Proof.
  revert best. induction l as [|x l IH]; intros best; simpl.
  - split; [now left|]. intros y [<-|[]]. apply Qle_refl.
  - destruct (Qgt_bool (snd x) (snd best)) eqn:E.
    + destruct (IH x) as [H1 H2]. split.
      * destruct H1 as [H1|H1]; [right; now left|right; now right].
      * intros y [<-|[<-|Hy]].
        -- apply Qle_trans with (snd x); [|apply H2; now left].
           apply Qlt_le_weak. now apply Qgt_bool_true.
        -- apply H2. now left.
        -- apply H2. now right.
    + destruct (IH best) as [H1 H2]. split.
      * destruct H1 as [H1|H1]; [now left|right; now right].
      * intros y [<-|[<-|Hy]].
        -- apply H2. now left.
        -- apply Qle_trans with (snd best);
             [now apply Qgt_bool_false|apply H2; now left].
        -- apply H2. now right.
Qed.

(** The similarity map has one entry per field name of the profile. *)
Lemma similarities_init (data : dict string) (q : string) :
  let sims := similarities_of (encode q) (field_embeddings (init data)) in
  (forall k s, In (k, s) sims -> In k (keys data) /\ s = similarity q k) /\
  (forall k, In k (keys data) -> In (k, similarity q k) sims).
Proof.
  destruct (create_field_embeddings_spec data) as [[Hn He] Hk].
  simpl. rewrite similarities_of_map by exact Hn. split.
  - intros k s Hin. apply in_map_iff in Hin. destruct Hin as ([k' e] & Heq & Hin).
    simpl in Heq. inversion Heq; subst. destruct (He _ _ Hin) as [-> Hin']. now split.
  - intros k Hin. apply Hk in Hin. destruct (dict_get_In _ _ Hin) as (e & _ & Hin').
    apply in_map_iff. exists (k, e). split; [|exact Hin'].
    simpl. destruct (He _ _ Hin') as [-> _]. reflexivity.
Qed.

Lemma find_best_match_returns (data : dict string) (q : string) (t : Q) :
  data <> [] -> exists r, find_best_match (init data) q t = Return r.
Proof.
  intros Hne. destruct (similarities_init data q) as [_ H2].
  unfold find_best_match.
  destruct (similarities_of (encode q) (field_embeddings (init data))) as [|x l] eqn:E.
  - exfalso. destruct data as [|[k v] data]; [now apply Hne|]. apply (H2 k). now left.
  - simpl. destruct (Qle_bool _ _); eexists; reflexivity.
Qed.

Lemma find_best_match_key (data : dict string) (q : string) (t : Q) (f : string) :
  find_best_match (init data) q t = Return (Some f) -> In f (keys data).
Proof.
  intros H. destruct (similarities_init data q) as [H1 _].
  unfold find_best_match in H.
  destruct (similarities_of (encode q) (field_embeddings (init data))) as [|x l] eqn:E;
    [discriminate|].
  simpl in H. destruct (max_from_spec x l) as [Hin _].
  destruct (Qle_bool t (snd (max_from x l))); [|discriminate].
  inversion H; subst f. clear H.
  destruct (max_from x l) as [f s]. now destruct (H1 f s Hin).
Qed.

End MatcherFacts.

(** ** Computations *)

Lemma bind_ret_l {A B} (a : A) (f : A -> M B) : bind (ret a) f = f a.
Proof. unfold bind, ret. now destruct (f a). Qed.

Lemma bind_lift_Return {A B} (a : A) (f : A -> M B) : bind (lift (Return a)) f = f a.
Proof. apply bind_ret_l. Qed.

Lemma bind_emit {B} (ev : event) (f : unit -> M B) :
  bind (emit ev) f = (ev :: fst (f tt), snd (f tt)).
Proof. unfold bind, emit. now destruct (f tt). Qed.

Lemma returns_ret {A} (a : A) : returns (ret a).
Proof. now exists [], a. Qed.

Lemma returns_emit (ev : event) : returns (emit ev).
Proof. now exists [ev], tt. Qed.

Lemma returns_bind {A B} (m : M A) (f : A -> M B) :
  returns m -> (forall a, returns (f a)) -> returns (bind m f).
Proof.
  intros (w & a & ->) Hf. destruct (Hf a) as (w' & b & Hb).
  exists (w ++ w')%list, b. unfold bind. now rewrite Hb.
Qed.

(** A handler that returns makes the whole [try] return. *)
Lemma returns_try_except {A} (m : M A) (h : exn -> M A) :
  (forall e, returns (h e)) -> returns (try_except m h).
Proof.
  intros Hh. destruct m as [w [a|e]]; simpl.
  - now exists w, a.
  - destruct (Hh e) as (w' & a & Ha). unfold try_except, try_except_on.
    rewrite Ha. now exists (w ++ w')%list, a.
Qed.

Lemma returns_unit (m : M unit) : returns m -> exists w, m = (w, Return tt).
Proof. intros (w & [] & ->). now exists w. Qed.

Lemma for_returns {A} (l : list A) (body : A -> M unit) :
  (forall x, returns (body x)) ->
  for_ l body = (flat_map (fun x => fst (body x)) l, Return tt).
Proof.
  intros Hb. induction l as [|x l IH]; simpl; [reflexivity|].
  destruct (returns_unit _ (Hb x)) as (w & Hw). rewrite Hw, IH. reflexivity.
Qed.

(** The handlers of the program print one line and return a value. *)
Ltac reported :=
  apply returns_try_except; intros ?;
  apply returns_bind; [apply returns_emit | intros _; apply returns_ret].

Lemma find_field_by_text_returns d q : returns (find_field_by_text d q).
Proof. reported. Qed.

Lemma get_form_questions_returns d : returns (get_form_questions d).
Proof. reported. Qed.

Lemma get_field_type_returns e : returns (get_field_type e).
Proof. apply returns_try_except. intros x. apply returns_ret. Qed.

Lemma fill_date_field_returns d e v : returns (fill_date_field d e v).
Proof. reported. Qed.

Lemma fill_text_field_returns d e v : returns (fill_text_field d e v).
Proof. reported. Qed.

Section FillFacts.
Context `{model : SentenceTransformer}.

Lemma fill_radio_field_returns d e v : returns (fill_radio_field d e v).
Proof. reported. Qed.

Lemma fill_dropdown_field_returns d e v : returns (fill_dropdown_field d e v).
Proof. reported. Qed.

End FillFacts.

(** ** Classification *)

Lemma classify_skip_empty (container : element) (earlier ms : list (string * string)) :
  Forall (probe_empty container) earlier ->
  classify_by_priority container (earlier ++ ms)%list
  = classify_by_priority container ms.
Proof.
  induction 1 as [|[xpath widget] earlier Hx _ IH]; simpl; [reflexivity|].
  unfold probe_empty in Hx. simpl in Hx. now rewrite Hx.
Qed.

Lemma get_field_type_classify (container : element) :
  get_field_type container = ([], Return (classify_by_priority container markers)).
Proof.
  unfold get_field_type, find_elements, markers. simpl.
  repeat match goal with
  | |- context [el_find_elements container ?x] =>
      destruct (el_find_elements container x) as [[|? ?]|?]; simpl; try reflexivity
  end.
Qed.

(** ** Dates written [MM/DD/YYYY] *)

Module DateFacts.
Import Date.

Lemma match_m_two_digits (m : nat) (rest : string) :
  1 <= m <= 12 ->
  match_m (Str.zfill 2 (Str.of_nat m) ++ "/" ++ rest) = Some (m, "/" ++ rest).
Proof.
  intros [H1 H2].
  do 13 (destruct m as [|m]; [first [lia | reflexivity]|]). lia.
Qed.

Lemma match_d_two_digits (d : nat) (rest : string) :
  1 <= d <= 31 ->
  match_d (Str.zfill 2 (Str.of_nat d) ++ "/" ++ rest) = Some (d, "/" ++ rest).
Proof.
  intros [H1 H2].
  do 32 (destruct d as [|d]; [first [lia | reflexivity]|]). lia.
Qed.

(** The fuel of [Str.digits] does not matter once it exceeds the number. *)
Lemma digits_fuel (n f : nat) (acc : string) :
  n < f -> Str.digits f n acc = Str.digits (S n) n acc.
Proof.
  revert f acc. induction n as [n IH] using (well_founded_induction lt_wf).
  intros f acc Hf. destruct f as [|f]; [lia|].
  cbn [Str.digits]. destruct (Nat.ltb_spec n 10) as [Hlt|Hge]; [reflexivity|].
  assert (Hdiv : n / 10 < n) by (apply Nat.div_lt; lia).
  rewrite (IH (n / 10) Hdiv f) by lia.
  rewrite (IH (n / 10) Hdiv n) by lia. reflexivity.
Qed.

Lemma digits_large (n : nat) (acc : string) :
  10 <= n ->
  Str.digits (S n) n acc = Str.digits (S (n / 10)) (n / 10) (String (Str.digit n) acc).
Proof.
  intros H. cbn [Str.digits]. destruct (Nat.ltb_spec n 10); [lia|].
  apply digits_fuel. apply Nat.div_lt; lia.
Qed.

Lemma digits_small (n : nat) (acc : string) :
  n < 10 -> Str.digits (S n) n acc = String (Str.digit n) acc.
Proof.
  intros H. cbn [Str.digits]. destruct (Nat.ltb_spec n 10); [reflexivity|lia].
Qed.

Lemma is_digit_digit (n : nat) : is_digit (Str.digit n) = true.
Proof.
  unfold is_digit, in_range, Str.digit.
  pose proof (Nat.mod_upper_bound n 10 ltac:(lia)) as Hm.
  rewrite nat_ascii_embedding by lia.
  apply andb_true_iff. split; apply Nat.leb_le; lia.
Qed.

Lemma val_digit (n : nat) : val (Str.digit n) = n mod 10.
Proof.
  unfold val, Str.digit.
  pose proof (Nat.mod_upper_bound n 10 ltac:(lia)) as Hm.
  rewrite nat_ascii_embedding by lia. lia.
Qed.

Lemma match_Y_digits (a b c e : nat) :
  match_Y (String (Str.digit a) (String (Str.digit b)
            (String (Str.digit c) (String (Str.digit e) ""))))
  = Some (1000 * (a mod 10) + 100 * (b mod 10) + 10 * (c mod 10) + e mod 10, "").
Proof.
  unfold match_Y. rewrite !is_digit_digit, !val_digit. reflexivity.
Qed.

Lemma zero_digit : "0"%char = Str.digit 0.
Proof. reflexivity. Qed.

Lemma match_Y_four_digits (y : nat) :
  y < 10 * 1000 -> match_Y (Str.zfill 4 (Str.of_nat y)) = Some (y, "").
Proof.
  intros Hy. unfold Str.of_nat.
  pose proof (Nat.div_mod_eq y 10) as E0.
  pose proof (Nat.mod_upper_bound y 10 ltac:(lia)) as B0.
  destruct (Nat.lt_ge_cases y 10) as [H0|H0].
  { rewrite digits_small by exact H0. cbn [Str.zfill String.length Nat.sub Str.repeat0].
    rewrite !zero_digit, match_Y_digits. f_equal. f_equal.
    rewrite (Nat.mod_small y 10) by lia. rewrite !Nat.Div0.mod_0_l. lia. }
  rewrite digits_large by exact H0.
  pose proof (Nat.div_mod_eq (y / 10) 10) as E1.
  pose proof (Nat.mod_upper_bound (y / 10) 10 ltac:(lia)) as B1.
  destruct (Nat.lt_ge_cases (y / 10) 10) as [H1|H1].
  { rewrite digits_small by exact H1. cbn [Str.zfill String.length Nat.sub Str.repeat0].
    rewrite !zero_digit, match_Y_digits. f_equal. f_equal.
    rewrite (Nat.mod_small (y / 10) 10) by lia. rewrite !Nat.Div0.mod_0_l. lia. }
  rewrite digits_large by exact H1.
  pose proof (Nat.div_mod_eq (y / 10 / 10) 10) as E2.
  pose proof (Nat.mod_upper_bound (y / 10 / 10) 10 ltac:(lia)) as B2.
  destruct (Nat.lt_ge_cases (y / 10 / 10) 10) as [H2|H2].
  { rewrite digits_small by exact H2. cbn [Str.zfill String.length Nat.sub Str.repeat0].
    rewrite !zero_digit, match_Y_digits. f_equal. f_equal.
    rewrite (Nat.mod_small (y / 10 / 10) 10) by lia. rewrite !Nat.Div0.mod_0_l. lia. }
  rewrite digits_large by exact H2.
  assert (H3 : y / 10 / 10 / 10 < 10) by lia.
  rewrite digits_small by exact H3. cbn [Str.zfill String.length Nat.sub Str.repeat0].
  rewrite match_Y_digits. f_equal. f_equal.
  rewrite (Nat.mod_small (y / 10 / 10 / 10) 10) by lia. lia.
Qed.
Lemma days_in_month_le (y m : nat) : days_in_month y m <= 31.
Proof.
  unfold days_in_month.
  do 13 (destruct m as [|m]; [try lia; destruct (is_leap y); lia|]). lia.
Qed.

Lemma match_slash_cons (rest : string) : match_slash ("/" ++ rest) = Some rest.
Proof. reflexivity. Qed.

(** A valid date written [MM/DD/YYYY] is parsed to its fields and
    formatted as year-month-day. *)
Lemma strptime_month_day_year (y m d : nat) :
  1 <= y < 10 * 1000 -> 1 <= m <= 12 -> 1 <= d <= days_in_month y m ->
  strptime (month_day_year y m d) = Return {| year := y; month := m; day := d |} /\
  strftime {| year := y; month := m; day := d |} = year_month_day y m d.
Proof.
  intros Hy Hm Hd. split; [|reflexivity]. unfold strptime, month_day_year.
  rewrite match_m_two_digits by exact Hm. rewrite match_slash_cons.
  rewrite match_d_two_digits by (pose proof (days_in_month_le y m); lia).
  rewrite match_slash_cons.
  rewrite match_Y_four_digits by lia.
  destruct (Nat.eqb_spec y 0) as [->|_]; [lia|].
  destruct (Nat.leb_spec d (days_in_month y m)); [reflexivity|lia].
Qed.

End DateFacts.

(** ** The stages of the choice strategies *)

Section ChoiceFacts.
Context `{model : SentenceTransformer}.

Lemma for_each_find (p : element -> bool) (body : element -> M (option bool))
    (options : list element) :
  (forall o, In o options ->
     body o = if p o then click o ;; return_ true else continue) ->
  for_each options body =
  match find p options with
  | Some o => click o ;; return_ true
  | None => ret None
  end.
Proof.
  induction options as [|o options IH]; intros Hbody; simpl; [reflexivity|].
  rewrite (Hbody o) by now left.
  destruct (p o).
  - unfold click, return_, lift, emit, bind, ret. simpl.
    destruct (el_click o) as [[]|x]; reflexivity.
  - unfold continue. rewrite bind_ret_l. apply IH.
    intros o' Ho'. apply Hbody. now right.
Qed.

Lemma for_fold_best (value : string) (options : list element) (best : best_state) :
  Forall readable options ->
  for_fold options best (fun (best : best_state) option =>
       t <- get_text option ;;
       let option_text := Str.strip t in
       let similarity := text_similarity option_text value in
       if Qgt_bool similarity (snd best)
       then ret (Some option, similarity)
       else ret best)
  = ret (best_from value best options).
Proof.
  intros Hr. revert best.
  induction Hr as [|o options [t Ht] _ IH]; intros best; cbn [for_fold best_from fold_left].
  - reflexivity.
  - unfold get_text, score, option_text. rewrite Ht, bind_lift_Return. cbv zeta.
    destruct (Qgt_bool _ _); rewrite bind_ret_l; apply IH.
Qed.

(** The four loops of a choice strategy, under its handler. *)
Lemma choice_stages (label value : string) (options : list element) :
  Forall readable options ->
  try_except
    (for_each options (fun option =>
       t <- get_text option ;;
       let option_text := Str.lower (Str.strip t) in
       if String.eqb (Str.lower value) option_text
       then click option ;; return_ true
       else continue) ;;?
     for_each options (fun option =>
       t <- get_text option ;;
       let option_text := Str.lower (Str.strip t) in
       if Str.contains (Str.lower value) option_text
          || Str.contains option_text (Str.lower value)
       then click option ;; return_ true
       else continue) ;;?
     for_each options (fun option =>
       t <- get_text option ;;
       let option_text := Str.strip t in
       let similarity := text_similarity option_text value in
       if Qgt_bool similarity (7 # 10)
       then click option ;; return_ true
       else continue) ;;?
     best <- for_fold options (None, 0%Q) (fun (best : best_state) option =>
       t <- get_text option ;;
       let option_text := Str.strip t in
       let similarity := text_similarity option_text value in
       if Qgt_bool similarity (snd best)
       then ret (Some option, similarity)
       else ret best) ;;
     match best with
     | (Some best_match, best_similarity) =>
         if Qgt_bool best_similarity (1 # 2)
         then click best_match ;; ret true
         else ret false
     | (None, _) => ret false
     end)
    (fun e =>
       print ("Error filling " ++ label ++ " field: " ++ str_exn e) ;;
       ret false)
  = select_outcome label (select_by_stages value options).
Proof.
  intros Hr. rewrite Forall_forall in Hr.
  rewrite (for_each_find (equals_ignoring_case value)).
  2:{ intros o Ho. destruct (Hr o Ho) as [t Ht].
      unfold get_text, equals_ignoring_case, option_text. rewrite Ht, bind_lift_Return.
      reflexivity. }
  rewrite (for_each_find (contains_ignoring_case value)).
  2:{ intros o Ho. destruct (Hr o Ho) as [t Ht].
      unfold get_text, contains_ignoring_case, option_text. rewrite Ht, bind_lift_Return.
      reflexivity. }
  rewrite (for_each_find (confident value)).
  2:{ intros o Ho. destruct (Hr o Ho) as [t Ht].
      unfold get_text, confident, score, option_text. rewrite Ht, bind_lift_Return.
      reflexivity. }
  rewrite for_fold_best by now apply Forall_forall.
  unfold select_by_stages, best_above_floor, select_outcome.
  destruct (find (equals_ignoring_case value) options) as [o|].
  { unfold or_else, click, return_, print, lift, emit, bind, ret, try_except, try_except_on.
    simpl. destruct (el_click o) as [[]|x]; reflexivity. }
  unfold or_else at 1. rewrite bind_ret_l.
  destruct (find (contains_ignoring_case value) options) as [o|].
  { unfold or_else, click, return_, print, lift, emit, bind, ret, try_except, try_except_on.
    simpl. destruct (el_click o) as [[]|x]; reflexivity. }
  unfold or_else at 1. rewrite bind_ret_l.
  destruct (find (confident value) options) as [o|].
  { unfold or_else, click, return_, print, lift, emit, bind, ret, try_except, try_except_on.
    simpl. destruct (el_click o) as [[]|x]; reflexivity. }
  unfold or_else at 1. rewrite bind_ret_l. rewrite bind_ret_l.
  destruct (best_from value (None, 0%Q) options) as [[o|] s]; [|reflexivity].
  destruct (Qgt_bool s (1 # 2)); [|reflexivity].
  unfold click, print, lift, emit, bind, ret, try_except, try_except_on.
  simpl. destruct (el_click o) as [[]|x]; reflexivity.
Qed.

(** Both strategies run the stages on the options they are presented. *)
Lemma choice_run_stages d e v prefix label options run :
  choice_run d e v prefix label options run ->
  Forall readable options ->
  run = after prefix (select_outcome label (select_by_stages v options)).
Proof.
  intros Hrun Hr. destruct Hrun as [options Hfind | dropdown options Hfind Hclick Hopts].
  - unfold fill_radio_field, find_elements. rewrite Hfind.
    match goal with |- try_except (bind _ ?f) ?h = _ =>
      pose proof (choice_stages "radio" v options Hr
                  : try_except (f options) h = _) as Hst;
      rewrite bind_lift_Return; rewrite Hst
    end.
    unfold after. now destruct (select_outcome _ _).
  - unfold fill_dropdown_field, find_element, driver_find_elements.
    rewrite Hfind, bind_lift_Return, Hopts.
    match goal with |- try_except (bind _ (fun _ => bind _ (fun _ => bind _ ?f))) ?h = _ =>
      pose proof (choice_stages "dropdown" v options Hr
                  : try_except (f options) h = _) as Hst;
      rewrite bind_lift_Return; rewrite <- Hst;
      destruct (f options) as [w [b|x]]
    end; unfold click, sleep; rewrite Hclick; reflexivity.
Qed.

(** The running best after the last loop: the first option of maximal
    score above the starting value, and that score. *)
Lemma best_from_spec v options best :
  let best' := best_from v best options in
  (snd best <= snd best')%Q /\
  (forall o, In o options -> (score v o <= snd best')%Q) /\
  (best' = best \/ exists o, In o options /\ best' = (Some o, score v o)).
Proof.
  revert best. induction options as [|a options IH]; intros best; simpl.
  - split; [apply Qle_refl|]. split; [intros o []|now left].
  - destruct (Qgt_bool (score v a) (snd best)) eqn:E.
    + destruct (IH (Some a, score v a)) as (H1 & H2 & H3). simpl in H1.
      split; [|split].
      * apply Qle_trans with (score v a); [|exact H1].
        apply Qlt_le_weak. now apply Qgt_bool_true.
      * intros o [<-|Ho]; [exact H1|now apply H2].
      * right. destruct H3 as [->|(o & Ho & ->)].
        -- exists a. split; [now left|reflexivity].
        -- exists o. split; [now right|reflexivity].
    + destruct (IH best) as (H1 & H2 & H3). split; [exact H1|]. split.
      * intros o [<-|Ho]; [|now apply H2].
        apply Qle_trans with (snd best); [now apply Qgt_bool_false|exact H1].
      * destruct H3 as [->|(o & Ho & ->)]; [now left|].
        right. exists o. split; [now right|reflexivity].
Qed.

End ChoiceFacts.

(** ** The body of the fill pass *)

Section PassFacts.
Context `{model : SentenceTransformer}.

Lemma truthy_Some r f : truthy r = Some f -> r = Some f.
Proof. destruct r as [[|? ?]|]; simpl; congruence. Qed.

(** With a non-empty profile and a scroll script that does not raise, the
    body of the loop returns for every question. *)
Lemma process_question_returns data d q :
  data <> [] ->
  (forall args,
     drv_execute_script d "arguments[0].scrollIntoView(true);" args = Return tt) ->
  exists w, process_question (init data) d q
            = (Print (nl ++ "Processing question: " ++ q) :: w, Return tt).
Proof.
  intros Hne Hscroll. unfold process_question, print at 1.
  rewrite bind_emit.
  match goal with |- exists w, (_ :: fst ?m, snd ?m) = _ =>
    assert (Hm : returns m); [|destruct (returns_unit _ Hm) as [w ->]; now exists w] end.
  destruct (find_best_match_returns data q default_threshold Hne) as [r Hr].
  rewrite Hr, bind_lift_Return.
  destruct (truthy r) as [f|] eqn:Et; [|apply returns_emit].
  apply truthy_Some in Et. subst r. apply find_best_match_key in Hr.
  destruct (dict_get_In _ _ Hr) as (v & Hv & _).
  apply returns_bind; [apply returns_emit|]. intros _.
  simpl form_data. rewrite Hv, bind_lift_Return.
  apply returns_bind; [apply find_field_by_text_returns|].
  intros [c|]; [|apply returns_emit].
  apply returns_bind; [apply get_field_type_returns|]. intros ty.
  apply returns_bind; [apply returns_emit|]. intros _.
  apply returns_bind.
  { unfold execute_script. rewrite Hscroll. apply returns_bind; [apply returns_emit|].
    intros _. apply returns_ret. }
  intros _. apply returns_bind; [apply returns_emit|]. intros _.
  apply returns_bind.
  { destruct (String.eqb ty "date"); [apply fill_date_field_returns|].
    destruct (String.eqb ty "radio"); [apply fill_radio_field_returns|].
    destruct (String.eqb ty "dropdown"); [apply fill_dropdown_field_returns|].
    apply fill_text_field_returns. }
  intros success. apply returns_bind; [destruct success; apply returns_emit|].
  intros _. apply returns_emit.
Qed.

(** The pass itself never propagates an exception. *)
Lemma fill_form_returns (self : SemanticFormFiller) d stdin :
  exists w, fill_form self d stdin = (w, Return tt).
Proof.
  unfold fill_form.
  match goal with |- context [try_except ?m ?h] =>
    assert (H : returns (try_except m h))
      by (apply returns_try_except; intros; apply returns_emit);
    destruct (returns_unit _ H) as [w ->] end.
  eexists. reflexivity.
Qed.

End PassFacts.

(** * Properties of the matcher *)

Section MatcherProperties.
Context `{model : SentenceTransformer}.

(** C1 (amended: the profile is not empty).  For every non-empty profile,
    every question and every threshold, [find_best_match] scores the
    question against the cached embedding of every field name, which is the
    embedding of that name; some field name [f] of the profile has the
    maximal similarity, and the result is [f] when that maximum is at least
    the threshold and none otherwise.  So a returned field is always an
    argmax of the similarity map. *)
Theorem find_best_match_argmax (data : dict string) (q : string) (t : Q) :
  data <> [] ->
  exists f,
    In f (keys data) /\
    dict_get (field_embeddings (init data)) f = Return (encode f) /\
    (forall g, In g (keys data) -> (similarity q g <= similarity q f)%Q) /\
    find_best_match (init data) q t
    = Return (if Qle_bool t (similarity q f) then Some f else None).
Proof.
  intros Hne. destruct (similarities_init data q) as [H1 H2].
  unfold find_best_match.
  destruct (similarities_of (encode q) (field_embeddings (init data))) as [|x l] eqn:E.
  - exfalso. destruct data as [|[k v] data]; [now apply Hne|].
    apply (H2 k). now left.
  - simpl. destruct (max_from_spec x l) as [Hin Hmax].
    destruct (max_from x l) as [f s] eqn:Ef. simpl in *.
    destruct (H1 f s Hin) as [Hf ->].
    exists f. split; [exact Hf|]. split; [|split; [|now destruct (Qle_bool t _)]].
    + destruct (create_field_embeddings_spec data) as [[Hn He] Hk].
      destruct (dict_get_In _ _ (Hk _ Hf)) as (e & Hg & Hi).
      simpl. rewrite Hg. now destruct (He _ _ Hi) as [-> _].
    + intros g Hg. apply (Hmax (g, similarity q g)). now apply H2.
Qed.

(** C2.  For every filler, question and thresholds [t1 <= t2]: a field
    name returned at threshold [t2] is returned at threshold [t1] too. *)
Theorem find_best_match_threshold_monotone (self : SemanticFormFiller)
    (q : string) (t1 t2 : Q) (f : string) :
  (t1 <= t2)%Q ->
  find_best_match self q t2 = Return (Some f) ->
  find_best_match self q t1 = Return (Some f).
Proof.
  intros Hle. unfold find_best_match.
  destruct (max_by_value _) as [best|e]; [|discriminate].
  destruct (Qle_bool t2 (snd best)) eqn:E2; [|discriminate].
  intros H. rewrite H. clear H.
  assert (Qle_bool t1 (snd best) = true) as ->; [|reflexivity].
  apply Qle_bool_iff. apply Qle_trans with t2; [exact Hle|]. now apply Qle_bool_iff.
Qed.

(** C10.  A field name returned by [find_best_match] is a key of the
    loaded profile and of the cached embeddings, so the lookup
    [form_data[best_match]] of the fill pass returns a value. *)
Theorem best_match_is_profile_key (data : dict string) (q : string) (t : Q)
    (f : string) :
  find_best_match (init data) q t = Return (Some f) ->
  In f (keys (form_data (init data))) /\
  In f (keys (field_embeddings (init data))) /\
  exists value, dict_get (form_data (init data)) f = Return value.
Proof.
  intros H. apply find_best_match_key in H. simpl.
  split; [exact H|]. split.
  - now apply create_field_embeddings_spec.
  - destruct (dict_get_In _ _ H) as (v & Hv & _). now exists v.
Qed.

End MatcherProperties.

(** The profile with no field: [max] of the empty similarity map raises. *)
Lemma empty_profile_raises :
  @find_best_match Examples.sample_model (@init Examples.sample_model [])
    Examples.name_question (1 # 2)
  = Raise (Exn ValueError "max() arg is an empty sequence").
Proof. reflexivity. Qed.

Lemma argmax_on_sample_profile :
  Examples.sample_profile <> [] /\
  exists f,
    In f (keys Examples.sample_profile) /\
    dict_get (@field_embeddings Examples.sample_model Examples.sample_filler) f
    = Return (@encode Examples.sample_model f) /\
    (forall g, In g (keys Examples.sample_profile) ->
       (@similarity Examples.sample_model Examples.name_question g
        <= @similarity Examples.sample_model Examples.name_question f)%Q) /\
    @find_best_match Examples.sample_model Examples.sample_filler
      Examples.name_question (1 # 2)
    = Return (if Qle_bool (1 # 2)
                   (@similarity Examples.sample_model Examples.name_question f)
              then Some f else None).
Proof.
  split; [discriminate|].
  apply (@find_best_match_argmax Examples.sample_model Examples.sample_profile
           Examples.name_question (1 # 2)).
  discriminate.
Defined.

Lemma lower_threshold_on_sample :
  (1 # 2 <= 7 # 10)%Q /\
  @find_best_match Examples.sample_model Examples.sample_filler
    Examples.name_question (7 # 10) = Return (Some "Full Name") /\
  @find_best_match Examples.sample_model Examples.sample_filler
    Examples.name_question (1 # 2) = Return (Some "Full Name").
Proof.
  assert (H : (1 # 2 <= 7 # 10)%Q) by (unfold Qle; simpl; lia).
  split; [exact H|]. split; [reflexivity|].
  apply (@find_best_match_threshold_monotone Examples.sample_model
           Examples.sample_filler Examples.name_question (1 # 2) (7 # 10) "Full Name").
  - exact H.
  - reflexivity.
Defined.

Lemma sample_match_in_profile :
  @find_best_match Examples.sample_model Examples.sample_filler
    Examples.name_question (1 # 2) = Return (Some "Full Name") /\
  In "Full Name" (keys Examples.sample_profile) /\
  In "Full Name" (keys (@field_embeddings Examples.sample_model Examples.sample_filler)) /\
  exists value, dict_get Examples.sample_profile "Full Name" = Return value.
Proof.
  split; [reflexivity|].
  apply (@best_match_is_profile_key Examples.sample_model Examples.sample_profile
           Examples.name_question (1 # 2) "Full Name").
  reflexivity.
Defined.

(** * Properties of the classifier *)

(** C5.  For every container, [get_field_type] probes the markers in the
    order radio, checkbox, date, listbox, textarea, text input; it returns
    the widget type of the first marker that is present, [text] when none
    is, and [text] when a probe raises: it never propagates an exception.
    In particular a container with a radio marker is a radio, whatever
    else it holds. *)
Theorem get_field_type_priority (container : element) :
  get_field_type container = ([], Return (classify_by_priority container markers)) /\
  (forall earlier xpath widget later hit hits,
     markers = (earlier ++ (xpath, widget) :: later)%list ->
     Forall (probe_empty container) earlier ->
     el_find_elements container xpath = Return (hit :: hits) ->
     get_field_type container = ([], Return widget)) /\
  (Forall (probe_empty container) markers ->
     get_field_type container = ([], Return "text")) /\
  (forall earlier xpath widget later x,
     markers = (earlier ++ (xpath, widget) :: later)%list ->
     Forall (probe_empty container) earlier ->
     el_find_elements container xpath = Raise x ->
     get_field_type container = ([], Return "text")).
Proof.
  rewrite get_field_type_classify. split; [reflexivity|]. split; [|split].
  - intros earlier xpath widget later hit hits -> Hearlier Hhit.
    rewrite classify_skip_empty by exact Hearlier. simpl. now rewrite Hhit.
  - intros Hall. rewrite <- (app_nil_r markers).
    rewrite classify_skip_empty by exact Hall. reflexivity.
  - intros earlier xpath widget later x -> Hearlier Hraise.
    rewrite classify_skip_empty by exact Hearlier. simpl. now rewrite Hraise.
Qed.

Lemma radio_and_text_is_radio :
  el_find_elements Examples.radio_and_text ".//div[@role='radio']"
  = Return [Examples.node 31 "Yes" []] /\
  el_find_elements Examples.radio_and_text ".//input[@type='text']"
  = Return [Examples.node 32 "" []] /\
  get_field_type Examples.radio_and_text = ([], Return "radio").
Proof.
  split; [reflexivity|]. split; [reflexivity|].
  destruct (get_field_type_priority Examples.radio_and_text) as (_ & Hfirst & _).
  apply (Hfirst [] ".//div[@role='radio']" "radio" (tl markers)
           (Examples.node 31 "Yes" []) []).
  - reflexivity.
  - constructor.
  - reflexivity.
Defined.

(** A probe that raises after four empty probes: the widget is a text. *)
Example stale_probe_is_text :
  el_find_elements Examples.stale_container ".//div[@role='listbox']"
  = Raise (Exn StaleElementReferenceException "stale element reference") /\
  get_field_type Examples.stale_container = ([], Return "text").
Proof. split; reflexivity. Qed.

(** * Properties of the fill strategies *)

Section StrategyProperties.
Context `{model : SentenceTransformer}.

(** C8.  Each of the four fill strategies returns a boolean for every
    driver, container and value: no exception raised inside reaches the
    caller. *)
Theorem fill_strategies_never_raise (driver : webdriver) (container : element)
    (value : string) :
  (exists w b, fill_date_field driver container value = (w, Return b)) /\
  (exists w b, fill_radio_field driver container value = (w, Return b)) /\
  (exists w b, fill_dropdown_field driver container value = (w, Return b)) /\
  (exists w b, fill_text_field driver container value = (w, Return b)).
Proof.
  split; [apply fill_date_field_returns|].
  split; [apply fill_radio_field_returns|].
  split; [apply fill_dropdown_field_returns|apply fill_text_field_returns].
Qed.

(** C3.  When a choice strategy (radio or dropdown) is presented options
    whose texts can be read, it runs the stages in order, each over all
    the options: exact equality ignoring case, then containment ignoring
    case, then similarity above 0.7, then the best score above 0.5; the
    option selected is clicked.  In particular, when some option equals the
    value ignoring case, the first such option is the one clicked, whatever
    an earlier option would give in a later stage. *)
Theorem choice_stages_in_order (d : webdriver) (e : element) (v : string)
    (prefix : list event) (label : string) (options : list element) (run : M bool) :
  choice_run d e v prefix label options run ->
  Forall readable options ->
  run = after prefix (select_outcome label (select_by_stages v options)) /\
  (forall o, In o options -> equals_ignoring_case v o = true ->
     exists o', find (equals_ignoring_case v) options = Some o' /\
       equals_ignoring_case v o' = true /\
       run = after prefix (select_outcome label (Some o'))).
Proof.
  intros Hrun Hr. pose proof (choice_run_stages _ _ _ _ _ _ _ Hrun Hr) as Heq.
  split; [exact Heq|]. intros o Ho Hex.
  destruct (find (equals_ignoring_case v) options) as [o'|] eqn:Ef.
  - exists o'. split; [reflexivity|]. split; [now apply find_some in Ef|].
    rewrite Heq. unfold select_by_stages. now rewrite Ef.
  - exfalso. pose proof (find_none _ _ Ef o Ho) as Hn. congruence.
Qed.

(** C4.  When a choice strategy is presented readable options none of
    which matches the value exactly or partially, then either some option
    has a similarity above 0.7 and such an option is clicked; or none has,
    the best score is above 0.5 and an option of that best score is
    clicked; or no score is above 0.5, nothing is clicked and the result
    is false. *)
Theorem choice_fallback_thresholds (d : webdriver) (e : element) (v : string)
    (prefix : list event) (label : string) (options : list element) (run : M bool) :
  choice_run d e v prefix label options run ->
  Forall readable options ->
  (forall o, In o options ->
     equals_ignoring_case v o = false /\ contains_ignoring_case v o = false) ->
  (exists o, In o options /\ (7 # 10 < score v o)%Q /\
     run = after prefix (select_outcome label (Some o)))
  \/
  ((forall o, In o options -> (score v o <= 7 # 10)%Q) /\
   exists o, In o options /\ (1 # 2 < score v o)%Q /\
     (forall o', In o' options -> (score v o' <= score v o)%Q) /\
     run = after prefix (select_outcome label (Some o)))
  \/
  ((forall o, In o options -> (score v o <= 1 # 2)%Q) /\
   run = after prefix ([], Return false)).
Proof.
  intros Hrun Hr Hno. rewrite (choice_run_stages _ _ _ _ _ _ _ Hrun Hr).
  unfold select_by_stages.
  destruct (find (equals_ignoring_case v) options) as [o|] eqn:E1.
  { apply find_some in E1. destruct E1 as [Ho E1]. destruct (Hno o Ho). congruence. }
  destruct (find (contains_ignoring_case v) options) as [o|] eqn:E2.
  { apply find_some in E2. destruct E2 as [Ho E2]. destruct (Hno o Ho). congruence. }
  destruct (find (confident v) options) as [o|] eqn:E3.
  { apply find_some in E3. destruct E3 as [Ho E3]. left. exists o.
    split; [exact Ho|]. split; [now apply Qgt_bool_true|reflexivity]. }
  right.
  assert (Hlow : forall o, In o options -> (score v o <= 7 # 10)%Q).
  { intros o Ho. apply Qgt_bool_false. exact (find_none _ _ E3 o Ho). }
  unfold best_above_floor.
  destruct (best_from_spec v options (None, 0%Q)) as (_ & Hmax & Hbest).
  destruct (best_from v (None, 0%Q) options) as [[o|] s] eqn:Eb; simpl in *.
  - destruct Hbest as [Hbest|(o' & Ho' & Hbest)]; [discriminate|].
    inversion Hbest; subst o' s. clear Hbest.
    destruct (Qgt_bool (score v o) (1 # 2)) eqn:Ef.
    + left. split; [exact Hlow|]. exists o. split; [exact Ho'|].
      split; [now apply Qgt_bool_true|]. split; [exact Hmax|reflexivity].
    + right. split; [|reflexivity]. intros o' Hin.
      apply Qle_trans with (score v o); [now apply Hmax|now apply Qgt_bool_false].
  - right. split; [|reflexivity]. intros o' Hin.
    destruct Hbest as [Hbest|(o'' & _ & Hbest)]; [|discriminate].
    inversion Hbest; subst s.
    apply Qle_trans with 0%Q; [now apply Hmax|]. discriminate.
Qed.

End StrategyProperties.

(** Options Crimson, Reddish and RED for the value Red: the third one is
    clicked, though the first would win on similarity and the second on
    containment. *)
Example colors_run :
  @confident Examples.sample_model "Red" Examples.crimson = true /\
  contains_ignoring_case "Red" Examples.reddish = true /\
  equals_ignoring_case "Red" Examples.red = true /\
  @fill_radio_field Examples.sample_model Examples.blank_driver
    Examples.color_radio "Red" = ([Click 13], Return true).
Proof. repeat split; reflexivity. Qed.

Lemma exact_match_wins_on_colors :
  @choice_run Examples.sample_model Examples.blank_driver Examples.color_radio "Red"
    [] "radio" Examples.color_options Examples.colors_fill /\
  Forall readable Examples.color_options /\
  (Examples.colors_fill
   = after [] (select_outcome "radio"
                 (@select_by_stages Examples.sample_model "Red" Examples.color_options)) /\
   (forall o, In o Examples.color_options -> equals_ignoring_case "Red" o = true ->
      exists o', find (equals_ignoring_case "Red") Examples.color_options = Some o' /\
        equals_ignoring_case "Red" o' = true /\
        Examples.colors_fill = after [] (select_outcome "radio" (Some o')))).
Proof.
  assert (Hrun : @choice_run Examples.sample_model Examples.blank_driver
                   Examples.color_radio "Red" [] "radio" Examples.color_options
                   Examples.colors_fill).
  { constructor. reflexivity. }
  assert (Hr : Forall readable Examples.color_options).
  { repeat constructor; eexists; reflexivity. }
  split; [exact Hrun|]. split; [exact Hr|].
  exact (@choice_stages_in_order Examples.sample_model _ _ _ _ _ _ _ Hrun Hr).
Defined.

(** Options Vermillion and Azure for the value Red, in a dropdown: the
    best score is 0.6, between the two thresholds. *)
Example shades_run :
  @fill_dropdown_field Examples.sample_model Examples.shade_driver
    Examples.shade_dropdown "Red" = ([Click 71; Sleep 500; Click 21], Return true) /\
  @fill_radio_field Examples.sample_model Examples.blank_driver
    Examples.shade_radio "Blue" = ([], Return false).
Proof. split; reflexivity. Qed.

Lemma fallback_on_shades :
  @choice_run Examples.sample_model Examples.shade_driver Examples.shade_dropdown "Red"
    [Click 71; Sleep 500] "dropdown" Examples.shade_options Examples.shades_fill /\
  Forall readable Examples.shade_options /\
  (forall o, In o Examples.shade_options ->
     equals_ignoring_case "Red" o = false /\ contains_ignoring_case "Red" o = false) /\
  ((exists o, In o Examples.shade_options /\
      (7 # 10 < @score Examples.sample_model "Red" o)%Q /\
      Examples.shades_fill
      = after [Click 71; Sleep 500] (select_outcome "dropdown" (Some o)))
   \/
   ((forall o, In o Examples.shade_options ->
       (@score Examples.sample_model "Red" o <= 7 # 10)%Q) /\
    exists o, In o Examples.shade_options /\
      (1 # 2 < @score Examples.sample_model "Red" o)%Q /\
      (forall o', In o' Examples.shade_options ->
         (@score Examples.sample_model "Red" o'
          <= @score Examples.sample_model "Red" o)%Q) /\
      Examples.shades_fill
      = after [Click 71; Sleep 500] (select_outcome "dropdown" (Some o)))
   \/
   ((forall o, In o Examples.shade_options ->
       (@score Examples.sample_model "Red" o <= 1 # 2)%Q) /\
    Examples.shades_fill = after [Click 71; Sleep 500] ([], Return false))).
Proof.
  assert (Hrun : @choice_run Examples.sample_model Examples.shade_driver
                   Examples.shade_dropdown "Red" [Click 71; Sleep 500] "dropdown"
                   Examples.shade_options Examples.shades_fill).
  { apply (@dropdown_run Examples.sample_model Examples.shade_driver
             Examples.shade_dropdown "Red" Examples.listbox); reflexivity. }
  assert (Hr : Forall readable Examples.shade_options).
  { repeat constructor; eexists; reflexivity. }
  assert (Hno : forall o, In o Examples.shade_options ->
            equals_ignoring_case "Red" o = false /\ contains_ignoring_case "Red" o = false).
  { intros o [<-|[<-|[]]]; split; reflexivity. }
  split; [exact Hrun|]. split; [exact Hr|]. split; [exact Hno|].
  exact (@choice_fallback_thresholds Examples.sample_model _ _ _ _ _ _ _ Hrun Hr Hno).
Defined.


(** The date of the specification, on an input that refuses the formatted
    string: the segments are typed. *)
Example picky_date_run :
  Date.strptime "03/07/2024" = Date.strptime (month_day_year 2024 3 7) /\
  year_month_day 2024 3 7 = "2024-03-07" /\
  fill_date_field Examples.blank_driver Examples.picky_date "03/07/2024"
  = ([Clear 43; SendKeys 43 "2024-03-07"; Click 43; Sleep 500;
      SendKeys 43 "2024"; SendKeys 43 Keys_TAB; SendKeys 43 "03";
      SendKeys 43 Keys_TAB; SendKeys 43 "07"],
     Return true).
Proof. repeat split; reflexivity. Qed.



(** C9 (amended: a command that raises also gives false).  For every
    container and value, the text strategy probes the selectors in the
    order text-typed input, any input, textarea; when the first element
    located is cleared and written without an exception, these two
    commands are the only ones sent and the result is true; when no
    selector locates an element the result is false; and the result is
    false only when no selector locates an element or when a lookup,
    the clearing or the writing raises. *)
Theorem fill_text_field_first_located (d : webdriver) (e : element) (v : string) :
  (forall i, first_located e text_selectors = Located i ->
     el_clear i = Return tt -> el_send_keys i v = Return tt ->
     fill_text_field d e v = ([Clear (el_id i); SendKeys (el_id i) v], Return true)) /\
  (first_located e text_selectors = NoneLocated ->
     fill_text_field d e v = ([], Return false)) /\
  (forall w, fill_text_field d e v = (w, Return false) ->
     first_located e text_selectors = NoneLocated \/
     (exists x, first_located e text_selectors = ProbeFailed x) \/
     (exists selector i, In selector text_selectors /\
        el_find_element e selector = Return i /\ write_raises i v)).
Proof.
  unfold fill_text_field, text_selectors, find_element, clear, send_keys.
  split; [|split].
  - intros i Hloc Hc Hs. simpl in *.
    repeat match type of Hloc with
    | context [el_find_element e ?x] =>
        destruct (el_find_element e x) as [?|?]; simpl in *
    | context [is_NoSuchElementException ?x] =>
        destruct (is_NoSuchElementException x); simpl in *
    end; try discriminate; inversion Hloc; subst; rewrite Hc, Hs; reflexivity.
  - intros Hloc. simpl in *.
    repeat match type of Hloc with
    | context [el_find_element e ?x] =>
        destruct (el_find_element e x) as [?|?]; simpl in *
    | context [is_NoSuchElementException ?x] =>
        destruct (is_NoSuchElementException x) eqn:?; simpl in *
    end; try discriminate; reflexivity.
  - intros w. simpl.
    repeat match goal with
    | |- context [el_find_element e ?x] =>
        let E := fresh "Efind" in
        destruct (el_find_element e x) as [?|?] eqn:E; simpl
    | |- context [el_clear ?i] =>
        let E := fresh "Eclear" in
        destruct (el_clear i) as [[]|?] eqn:E; simpl
    | |- context [el_send_keys ?i v] =>
        let E := fresh "Esend" in
        destruct (el_send_keys i v) as [[]|?] eqn:E; simpl
    | |- context [is_NoSuchElementException ?x] =>
        let E := fresh "Ense" in
        destruct (is_NoSuchElementException x) eqn:E; simpl
    end;
    intros H; try discriminate H;
    first
      [ left; reflexivity
      | right; left; eexists; reflexivity
      | right; right;
        match goal with
        | Hf : el_find_element e ?s = Return ?i, Hc : el_clear ?i = Raise ?x |- _ =>
            exists s, i; split; [simpl; tauto | split; [exact Hf | left; now exists x]]
        | Hf : el_find_element e ?s = Return ?i, Hc : el_send_keys ?i v = Raise ?x |- _ =>
            exists s, i; split; [simpl; tauto | split; [exact Hf | right; now exists x]]
        end ].
Qed.

Lemma text_fill_on_samples :
  (first_located Examples.plain_text text_selectors = Located Examples.text_input /\
   el_clear Examples.text_input = Return tt /\
   el_send_keys Examples.text_input "Ada Lovelace" = Return tt /\
   fill_text_field Examples.blank_driver Examples.plain_text "Ada Lovelace"
   = ([Clear 61; SendKeys 61 "Ada Lovelace"], Return true)) /\
  (first_located Examples.no_input text_selectors = NoneLocated /\
   fill_text_field Examples.blank_driver Examples.no_input "Ada Lovelace"
   = ([], Return false)).
Proof.
  destruct (fill_text_field_first_located Examples.blank_driver Examples.plain_text
              "Ada Lovelace") as (Hwrite & _ & _).
  destruct (fill_text_field_first_located Examples.blank_driver Examples.no_input
              "Ada Lovelace") as (_ & Hnone & _).
  split.
  - split; [reflexivity|]. split; [reflexivity|]. split; [reflexivity|].
    apply (Hwrite Examples.text_input); reflexivity.
  - split; [reflexivity|]. apply Hnone. reflexivity.
Defined.

(** A container with a hidden input and a textarea: [.//input] locates the
    hidden input, clearing it raises, and the result is false although an
    element was located and the textarea was never tried. *)
Lemma hidden_input_false_though_located :
  first_located Examples.hidden_first text_selectors = Located Examples.hidden_input /\
  el_find_element Examples.hidden_first ".//textarea" = Return (Examples.node 52 "" []) /\
  fill_text_field Examples.blank_driver Examples.hidden_first "Ada Lovelace"
  = ([Clear 51; Print "Error filling text field: element not interactable"],
     Return false).
Proof. repeat split; reflexivity. Qed.

(** * Properties of the fill pass *)

Section PassProperties.
Context `{model : SentenceTransformer}.

(** C7 (amended: the matcher and the scroll script are not contained per
    question).  For every non-empty profile and every page on which the
    scroll-into-view script does not raise: the body of the loop returns
    for every question, whatever the lookup of its container, the
    classification and the fill strategy do; so the pass processes every
    question it discovered, in order, and reaches the review prompt. *)
Theorem fill_pass_containment (data : dict string) (d : webdriver)
    (stdin : result string) :
  data <> [] ->
  (forall args,
     drv_execute_script d "arguments[0].scrollIntoView(true);" args = Return tt) ->
  exists discovery questions,
    get_form_questions d = (discovery, Return questions) /\
    (forall q, exists w,
       process_question (init data) d q
       = (Print (nl ++ "Processing question: " ++ q) :: w, Return tt)) /\
    fill_form (init data) d stdin
    = (app (pass_header discovery (List.length questions))
         (app (flat_map (fun q => fst (process_question (init data) d q)) questions)
            (pass_footer stdin)),
       Return tt).
Proof.
  intros Hne Hscroll.
  destruct (get_form_questions_returns d) as (discovery & questions & Hq).
  exists discovery, questions. split; [exact Hq|].
  split; [intros q; now apply process_question_returns|].
  unfold fill_form. rewrite Hq.
  cbv beta iota zeta delta [bind print sleep emit].
  rewrite (for_returns questions (process_question (init data) d)).
  2:{ intros q. destruct (process_question_returns data d q Hne Hscroll) as [w Hw].
      rewrite Hw. now exists (Print (nl ++ "Processing question: " ++ q) :: w), tt. }
  unfold pass_header, pass_footer, input, print, sleep, emit, lift, bind, ret,
    try_except, try_except_on, try_finally.
  generalize (flat_map (fun q => fst (process_question (init data) d q)) questions)
    as body.
  intros body. destruct stdin as [line|x]; simpl;
    repeat rewrite <- app_assoc; simpl; repeat rewrite <- app_assoc; reflexivity.
Qed.

End PassProperties.

(** The name field cannot be filled (its hidden input is not interactable)
    and the color question is processed all the same. *)
Example pass_after_failed_fill_run :
  @fill_form Examples.sample_model Examples.sample_filler
    (Examples.form_page Examples.hidden_first (Return tt)) (Return "")
  = ([Print "Waiting for form to load..."; Sleep 3000;
      Print (nl ++ "Found 2 questions in the form");
      Print (nl ++ "Processing question: What is your full name?");
      Print "Matched with field: Full Name";
      Print "Field type: textarea";
      ExecuteScript "arguments[0].scrollIntoView(true);" [ArgElement 50];
      Sleep 500;
      Clear 51;
      Print "Error filling text field: element not interactable";
      Print "Failed to fill field with value: Ada Lovelace";
      Sleep 500;
      Print (nl ++ "Processing question: Pick a color");
      Print "Matched with field: Favorite Color";
      Print "Field type: radio";
      ExecuteScript "arguments[0].scrollIntoView(true);" [ArgElement 10];
      Sleep 500;
      Click 13;
      Print "Successfully filled with: Red";
      Sleep 500;
      Print (nl ++ "Form filling completed!");
      Print "Please review the filled form and submit it manually.";
      Print "Press Enter when you're done...";
      Input;
      Sleep 2000],
     Return tt).
Proof. reflexivity. Qed.

Lemma pass_continues_after_failed_fill :
  Examples.sample_profile <> [] /\
  (forall args,
     drv_execute_script (Examples.form_page Examples.hidden_first (Return tt))
       "arguments[0].scrollIntoView(true);" args = Return tt) /\
  exists discovery questions,
    get_form_questions (Examples.form_page Examples.hidden_first (Return tt))
    = (discovery, Return questions) /\
    (forall q, exists w,
       @process_question Examples.sample_model Examples.sample_filler
         (Examples.form_page Examples.hidden_first (Return tt)) q
       = (Print (nl ++ "Processing question: " ++ q) :: w, Return tt)) /\
    @fill_form Examples.sample_model Examples.sample_filler
      (Examples.form_page Examples.hidden_first (Return tt)) (Return "")
    = (app (pass_header discovery (List.length questions))
         (app (flat_map
                 (fun q => fst (@process_question Examples.sample_model
                                  Examples.sample_filler
                                  (Examples.form_page Examples.hidden_first (Return tt)) q))
                 questions)
            (pass_footer (Return ""))),
       Return tt).
Proof.
  split; [discriminate|]. split; [intros args; reflexivity|].
  apply (@fill_pass_containment Examples.sample_model Examples.sample_profile
           (Examples.form_page Examples.hidden_first (Return tt)) (Return "")).
  - discriminate.
  - intros args. reflexivity.
Defined.

(** The scroll script raises on the first of two questions: the exception
    reaches the handler of the pass and the second question is never
    processed. *)
Lemma scroll_failure_ends_pass :
  get_form_questions
    (Examples.form_page Examples.plain_text
       (Raise (Exn JavascriptException "javascript error")))
  = ([], Return [Examples.name_question; Examples.color_question]) /\
  @fill_form Examples.sample_model Examples.sample_filler
    (Examples.form_page Examples.plain_text
       (Raise (Exn JavascriptException "javascript error")))
    (Return "")
  = ([Print "Waiting for form to load..."; Sleep 3000;
      Print (nl ++ "Found 2 questions in the form");
      Print (nl ++ "Processing question: What is your full name?");
      Print "Matched with field: Full Name";
      Print "Field type: text";
      ExecuteScript "arguments[0].scrollIntoView(true);" [ArgElement 60];
      Print "Error filling form: javascript error";
      Sleep 2000],
     Return tt).
Proof. split; reflexivity. Qed.

(** * Further properties

    Properties of the code outside the ten claims: the cache of embeddings,
    the order of equal matches, question discovery, container resolution,
    the body and the end of the fill pass, clicks, dates, and the run. *)

(** ** The cache of embeddings and equal matches *)

Section DictMore.
Context {V : Type}.

Lemma dict_of_fold_fresh (l acc : dict V) :
  NoDup (keys acc ++ keys l) ->
  fold_left (fun d kv => dict_set d (fst kv) (snd kv)) l acc = (acc ++ l)%list.
Proof.
  revert acc. induction l as [|[k v] l IH]; simpl; intros acc H.
  - now rewrite app_nil_r.
  - rewrite dict_set_fresh.
    + rewrite IH.
      * now rewrite <- app_assoc.
      * unfold keys in *. rewrite map_app. simpl. rewrite <- app_assoc. exact H.
    + apply NoDup_remove_2 in H. intros Hin. apply H. apply in_or_app. now left.
Qed.

Lemma dict_of_NoDup (l : dict V) : NoDup (keys l) -> dict_of l = l.
Proof. intros H. unfold dict_of. now rewrite dict_of_fold_fresh. Qed.

Lemma dict_get_not_In (d : dict V) (k : string) :
  ~ In k (keys d) -> dict_get d k = Raise (Exn KeyError ("'" ++ k ++ "'")).
Proof.
  induction d as [|[k' v] d IH]; simpl; intros H; [reflexivity|].
  destruct (String.eqb_spec k' k) as [->|Hne]; [exfalso; apply H; now left|].
  apply IH. intros Hin. apply H. now right.
Qed.

End DictMore.

Section MatcherMore.
Context `{model : SentenceTransformer}.

Lemma keys_combine_encode (names : list string) :
  keys (combine names (map encode names)) = names.
Proof. induction names as [|a l IH]; simpl; [reflexivity|]. now rewrite IH. Qed.

Lemma combine_encode_map (names : list string) :
  combine names (map encode names) = map (fun k => (k, encode k)) names.
Proof. induction names as [|a l IH]; simpl; [reflexivity|]. now rewrite IH. Qed.

(** X1.  [create_field_embeddings] caches one embedding per field name of
    the profile: the keys of the cache are distinct and are the field
    names; looking up a field name gives the embedding of that name, and
    any other key raises [KeyError]; when the field names are distinct the
    cache lists them in the order of the profile. *)
Theorem cached_embeddings (data : dict string) :
  NoDup (keys (create_field_embeddings data)) /\
  (forall k, In k (keys data) <-> In k (keys (create_field_embeddings data))) /\
  (forall k, In k (keys data) ->
     dict_get (create_field_embeddings data) k = Return (encode k)) /\
  (forall k, ~ In k (keys data) ->
     dict_get (create_field_embeddings data) k
     = Raise (Exn KeyError ("'" ++ k ++ "'"))) /\
  (NoDup (keys data) ->
     create_field_embeddings data = map (fun k => (k, encode k)) (keys data)).
Proof.
  destruct (create_field_embeddings_spec data) as [[Hn He] Hk].
  assert (Hiff : forall k,
            In k (keys data) <-> In k (keys (create_field_embeddings data))).
  { intros k. split; [apply Hk|]. intros Hin.
    destruct (dict_get_In _ _ Hin) as (e & _ & Hi). now destruct (He _ _ Hi). }
  split; [exact Hn|]. split; [exact Hiff|]. split; [|split].
  - intros k Hin. apply Hk in Hin. destruct (dict_get_In _ _ Hin) as (e & Hg & Hi).
    rewrite Hg. now destruct (He _ _ Hi) as [-> _].
  - intros k Hnot. apply dict_get_not_In. intros Hin. apply Hnot. now apply Hiff.
  - intros Hnd. unfold create_field_embeddings.
    rewrite dict_of_NoDup by now rewrite keys_combine_encode.
    apply combine_encode_map.
Qed.

Lemma max_from_stays (best : string * Q) (l : list (string * Q)) :
  (forall y, In y l -> (snd y <= snd best)%Q) -> max_from best l = best.
Proof.
  induction l as [|x l IH]; simpl; intros H; [reflexivity|].
  assert (Qgt_bool (snd x) (snd best) = false) as ->.
  { apply Qgt_bool_false. apply H. now left. }
  apply IH. intros y Hy. apply H. now right.
Qed.

Lemma max_from_reaches (best x : string * Q) (pre post : list (string * Q)) :
  (snd best < snd x)%Q ->
  (forall y, In y pre -> (snd y < snd x)%Q) ->
  max_from best (pre ++ x :: post)%list = max_from x post.
Proof.
  revert best. induction pre as [|p pre IH]; simpl; intros best Hb Hpre.
  - assert (Qgt_bool (snd x) (snd best) = true) as ->;
      [now apply Qgt_bool_true|reflexivity].
  - apply IH.
    + destruct (Qgt_bool (snd p) (snd best)); [apply Hpre; now left|exact Hb].
    + intros y Hy. apply Hpre. now right.
Qed.

Lemma max_by_value_first (x : string * Q) (pre post : list (string * Q)) :
  (forall y, In y pre -> (snd y < snd x)%Q) ->
  (forall y, In y post -> (snd y <= snd x)%Q) ->
  max_by_value (pre ++ x :: post)%list = Return x.
Proof.
  intros Hpre Hpost. destruct pre as [|p pre]; simpl.
  - now rewrite max_from_stays.
  - rewrite max_from_reaches.
    + now rewrite max_from_stays.
    + apply Hpre. now left.
    + intros y Hy. apply Hpre. now right.
Qed.

Lemma similarities_NoDup (data : dict string) (q : string) :
  NoDup (keys data) ->
  similarities_of (encode q) (field_embeddings (init data))
  = map (fun kv => (fst kv, similarity q (fst kv))) data.
Proof.
  intros Hnd. destruct (create_field_embeddings_spec data) as [[Hn _] _].
  simpl. rewrite similarities_of_map by exact Hn.
  unfold create_field_embeddings.
  rewrite dict_of_NoDup by now rewrite keys_combine_encode.
  rewrite combine_encode_map. unfold keys. rewrite !map_map. reflexivity.
Qed.

(** The best item of the similarity map is the first of maximal score. *)
Lemma best_item_first (pre post : dict string) (f v q : string) :
  NoDup (keys (pre ++ (f, v) :: post)%list) ->
  (forall g, In g (keys pre) -> (similarity q g < similarity q f)%Q) ->
  (forall g, In g (keys post) -> (similarity q g <= similarity q f)%Q) ->
  max_by_value
    (items (similarities_of (encode q)
              (field_embeddings (init (pre ++ (f, v) :: post)%list))))
  = Return (f, similarity q f).
Proof.
  intros Hnd Hpre Hpost.
  rewrite similarities_NoDup by exact Hnd. unfold items.
  rewrite map_app. simpl map.
  apply (max_by_value_first (f, similarity q f)).
  - intros y Hy. apply in_map_iff in Hy. destruct Hy as ([k w] & <- & Hin). simpl.
    apply Hpre. unfold keys. apply in_map_iff. now exists (k, w).
  - intros y Hy. apply in_map_iff in Hy. destruct Hy as ([k w] & <- & Hin). simpl.
    apply Hpost. unfold keys. apply in_map_iff. now exists (k, w).
Qed.

(** X2.  Among the field names of maximal similarity, [find_best_match]
    takes the first in the order of the profile: for a profile with
    distinct field names, a field whose similarity is strictly above that
    of every earlier field and at least that of every later field is the
    one returned (when its similarity reaches the threshold). *)
Theorem find_best_match_first_maximum (pre post : dict string) (f v q : string)
    (t : Q) :
  NoDup (keys (pre ++ (f, v) :: post)%list) ->
  (forall g, In g (keys pre) -> (similarity q g < similarity q f)%Q) ->
  (forall g, In g (keys post) -> (similarity q g <= similarity q f)%Q) ->
  find_best_match (init (pre ++ (f, v) :: post)%list) q t
  = Return (if Qle_bool t (similarity q f) then Some f else None).
Proof.
  intros Hnd Hpre Hpost. unfold find_best_match.
  rewrite (best_item_first pre post f v q Hnd Hpre Hpost).
  simpl. now destruct (Qle_bool t _).
Qed.


End MatcherMore.

Lemma sample_cache_in_profile_order :
  NoDup (keys Examples.sample_profile) /\
  @create_field_embeddings Examples.sample_model Examples.sample_profile
  = [ ("Full Name", "Full Name"); ("Birth Date", "Birth Date");
      ("Favorite Color", "Favorite Color") ].
Proof.
  assert (H : NoDup (keys Examples.sample_profile)).
  { repeat constructor; simpl; intuition discriminate. }
  split; [exact H|].
  destruct (@cached_embeddings Examples.sample_model Examples.sample_profile)
    as (_ & _ & _ & _ & Horder).
  rewrite (Horder H). reflexivity.
Defined.

(** Name and Full Name are at the same similarity 0.9 of the question: the
    earlier one is returned. *)
Lemma tie_goes_to_first_field :
  NoDup (keys Examples.tie_profile) /\
  @similarity Examples.tie_model "Your name?" "Name"
  = @similarity Examples.tie_model "Your name?" "Full Name" /\
  @find_best_match Examples.tie_model (@init Examples.tie_model Examples.tie_profile)
    "Your name?" (1 # 2)
  = Return (Some "Name").
Proof.
  assert (H : NoDup (keys Examples.tie_profile)).
  { repeat constructor; simpl; intuition discriminate. }
  split; [exact H|]. split; [reflexivity|].
  refine (@find_best_match_first_maximum Examples.tie_model
            [("Age", "36")] [("Full Name", "Ada Lovelace")] "Name" "Ada"
            "Your name?" (1 # 2) H _ _).
  - intros g [<-|[]]. reflexivity.
  - intros g [<-|[]]. discriminate.
Defined.

(** ** Question discovery *)

Lemma bind_nil_Return {A B} (a : A) (f : A -> M B) : bind ([], Return a) f = f a.
Proof. exact (bind_ret_l a f). Qed.

Lemma bind_Return {A B} (w : list event) (a : A) (f : A -> M B) :
  bind (w, Return a) f = ((w ++ fst (f a))%list, snd (f a)).
Proof. unfold bind. now destruct (f a). Qed.

Lemma bind_ext {A B} (m : M A) (f g : A -> M B) :
  (forall a, f a = g a) -> bind m f = bind m g.
Proof. intros H. destruct m as [w [a|e]]; simpl; [now rewrite H|reflexivity]. Qed.

Lemma mem_In (x : string) (l : list string) : mem x l = true <-> In x l.
Proof.
  unfold mem. rewrite existsb_exists. split.
  - intros (y & Hy & E). apply String.eqb_eq in E. now subst.
  - intros H. exists x. split; [exact H|apply String.eqb_refl].
Qed.

Lemma nonempty_str_true (s : string) : nonempty_str s = true <-> s <> "".
Proof. destruct s; simpl; split; congruence. Qed.

Lemma add_question_In (qs : list string) (t q : string) :
  In q (add_question qs t) <-> In q qs \/ (q = t /\ t <> "").
Proof.
  unfold add_question. destruct (nonempty_str t) eqn:En; simpl.
  - apply nonempty_str_true in En. destruct (mem t qs) eqn:Em; simpl.
    + apply mem_In in Em. split; [now left|]. intros [H|[-> _]]; assumption.
    + rewrite in_app_iff. simpl. split.
      * intros [H|[<-|[]]]; [now left|right; now split].
      * intros [H|[-> _]]; [now left|right; now left].
  - split; [now left|]. intros [H|[_ H]]; [exact H|].
    exfalso. apply H. destruct t; [reflexivity|discriminate].
Qed.

Lemma add_question_NoDup (qs : list string) (t : string) :
  NoDup qs -> NoDup (add_question qs t).
Proof.
  intros H. unfold add_question. destruct (nonempty_str t); simpl; [|exact H].
  destruct (mem t qs) eqn:Em; simpl; [exact H|].
  apply NoDup_app; [exact H|constructor; [intros []|constructor]|].
  intros x Hx [<-|[]]. apply mem_In in Hx. congruence.
Qed.

(** The collection keeps the questions distinct and not empty. *)
Lemma collect_spec (texts qs : list string) :
  NoDup qs -> ~ In "" qs ->
  let qs' := fold_left add_question texts qs in
  NoDup qs' /\ ~ In "" qs' /\
  (forall q, In q qs' <-> In q qs \/ (q <> "" /\ In q texts)).
Proof.
  revert qs. induction texts as [|t texts IH]; simpl; intros qs Hn He.
  - split; [exact Hn|]. split; [exact He|]. intros q. split; [now left|].
    intros [H|[_ []]]. exact H.
  - destruct (IH (add_question qs t)) as (H1 & H2 & H3).
    + now apply add_question_NoDup.
    + intros Hin. apply add_question_In in Hin.
      destruct Hin as [Hin|[E Hne]]; [contradiction|congruence].
    + split; [exact H1|]. split; [exact H2|]. intros q. rewrite H3, add_question_In.
      split.
      * intros [[H|[-> Hne]]|[Hne H]];
          [now left|right; split; [exact Hne|now left]|right; split; [exact Hne|now right]].
      * intros [H|[Hne [<-|H]]]; [left; now left|left; right; now split|right; now split].
Qed.

Lemma scan_all (elements : list element) (questions : list string) :
  Forall readable elements ->
  for_fold elements questions scan
  = ret (fold_left add_question (map option_text elements) questions).
Proof.
  intros Hr. revert questions.
  induction Hr as [|e elements [t Ht] _ IH]; intros questions;
    cbn [for_fold map fold_left].
  - reflexivity.
  - unfold scan at 1, get_text, option_text, add_question. rewrite Ht, bind_lift_Return.
    cbv zeta. destruct (_ && _); rewrite bind_ret_l; apply IH.
Qed.


Lemma get_form_questions_unfold (d : webdriver) :
  get_form_questions d
  = try_except
      (for_fold question_patterns [] (fun questions pattern =>
         elements <- driver_find_elements d pattern ;;
         for_fold elements questions scan))
      (fun e => print ("Error extracting questions: " ++ str_exn e) ;; ret []).
Proof. reflexivity. Qed.


Lemma discover_readable (d : webdriver) (patterns : list string) (qs : list string) :
  (forall pattern, In pattern patterns ->
     exists elements, drv_find_elements d pattern = Return elements) ->
  let found := flat_map
    (fun pattern =>
       match drv_find_elements d pattern with
       | Return elements => elements
       | Raise _ => []
       end) patterns in
  Forall readable found ->
  for_fold patterns qs (fun questions pattern =>
         elements <- driver_find_elements d pattern ;;
         for_fold elements questions scan)
  = ret (fold_left add_question (map option_text found) qs).
Proof.
  revert qs. induction patterns as [|p patterns IH]; intros qs Hl found Hr;
    cbn [for_fold]; [reflexivity|].
  subst found. cbn [flat_map] in *.
  destruct (Hl p (or_introl eq_refl)) as [els Ep]. rewrite Ep in *.
  apply Forall_app in Hr. destruct Hr as [Hr1 Hr2].
  unfold driver_find_elements at 1. rewrite Ep, bind_lift_Return.
  rewrite scan_all by exact Hr1. rewrite bind_ret_l.
  rewrite IH.
  - now rewrite map_app, fold_left_app.
  - intros pattern Hin. apply Hl. now right.
  - exact Hr2.
Qed.

(** X3.  When the three lookups return and the texts of the elements found
    can be read, [get_form_questions] sends no command and returns the
    stripped texts collected in order of first occurrence: the questions
    are distinct, none is empty, and a string is a question exactly when
    it is the non-empty stripped text of an element found. *)
Theorem get_form_questions_collects (d : webdriver) :
  lookups_return d ->
  Forall readable (question_elements d) ->
  exists qs,
    get_form_questions d = ([], Return qs) /\
    qs = fold_left add_question (map option_text (question_elements d)) [] /\
    NoDup qs /\
    ~ In "" qs /\
    (forall q, In q qs <->
       q <> "" /\ exists e, In e (question_elements d) /\ option_text e = q).
Proof.
  intros Hl Hr. eexists. split; [|split; [reflexivity|]].
  - rewrite get_form_questions_unfold.
    rewrite (discover_readable d question_patterns [] Hl Hr). reflexivity.
  - destruct (collect_spec (map option_text (question_elements d)) [])
      as (H1 & H2 & H3); [constructor|intros []|].
    split; [exact H1|]. split; [exact H2|]. intros q. rewrite H3. split.
    + intros [[]|[Hne Hin]]. split; [exact Hne|].
      apply in_map_iff in Hin. destruct Hin as (e & He & Hin). now exists e.
    + intros [Hne (e & Hin & He)]. right. split; [exact Hne|].
      apply in_map_iff. now exists e.
Qed.


Lemma questions_of_sample_form :
  lookups_return (Examples.form_page Examples.plain_text (Return tt)) /\
  Forall readable (question_elements (Examples.form_page Examples.plain_text (Return tt))) /\
  get_form_questions (Examples.form_page Examples.plain_text (Return tt))
  = ([], Return [Examples.name_question; Examples.color_question]).
Proof.
  assert (Hl : lookups_return (Examples.form_page Examples.plain_text (Return tt))).
  { intros pattern [<-|[<-|[<-|[]]]]; eexists; reflexivity. }
  assert (Hr : Forall readable
                 (question_elements (Examples.form_page Examples.plain_text (Return tt)))).
  { repeat constructor; eexists; reflexivity. }
  split; [exact Hl|]. split; [exact Hr|].
  destruct (get_form_questions_collects _ Hl Hr) as (qs & Heq & -> & _).
  rewrite Heq. reflexivity.
Defined.

(** The first lookup finds a question and the second raises: the question
    found is not returned. *)
Example broken_page_run :
  drv_find_elements Examples.broken_page Examples.question_xpath
  = Return [Examples.label 100 Examples.name_question Examples.plain_text] /\
  get_form_questions Examples.broken_page
  = ([Print "Error extracting questions: disconnected"], Return []).
Proof. split; reflexivity. Qed.

(** ** Container resolution *)

Lemma for_each_containers (d : webdriver) (patterns : list string) :
  for_each patterns (fun pattern =>
    try_except_on is_NoSuchElementException
      (element <- driver_find_element d pattern ;;
       container <- find_element element ".//ancestor::div[contains(@class, 'geS5n')]" ;;
       return_ (Some container))
      (fun _ => continue))
  = match first_container d patterns with
    | NoneLocated => ([], Return None)
    | Located container => ([], Return (Some (Some container)))
    | ProbeFailed e => ([], Raise e)
    end.
Proof.
  induction patterns as [|p patterns IH]; cbn [for_each first_container]; [reflexivity|].
  unfold driver_find_element at 1, find_element at 1, ancestor_xpath.
  destruct (drv_find_element d p) as [label|x]; cbn [bind lift].
  - destruct (el_find_element label _) as [c|x]; cbn [bind lift].
    + reflexivity.
    + unfold try_except_on. destruct (is_NoSuchElementException x).
      * unfold continue. cbn [ret app]. rewrite bind_nil_Return. exact IH.
      * reflexivity.
  - unfold try_except_on. destruct (is_NoSuchElementException x).
    + unfold continue. cbn [ret app]. rewrite bind_nil_Return. exact IH.
    + reflexivity.
Qed.

Lemma find_field_by_text_outcome (d : webdriver) (text : string) :
  find_field_by_text d text
  = container_outcome text (first_container d (field_patterns text)).
Proof.
  unfold find_field_by_text, field_patterns. cbv zeta.
  rewrite for_each_containers.
  destruct (first_container d _) as [|c|e]; reflexivity.
Qed.

Lemma first_container_Located (d : webdriver) (patterns : list string) (c : element) :
  first_container d patterns = Located c ->
  exists pattern label, In pattern patterns /\
    drv_find_element d pattern = Return label /\
    el_find_element label ancestor_xpath = Return c.
Proof.
  induction patterns as [|p patterns IH]; simpl; [discriminate|].
  destruct (drv_find_element d p) as [label|x] eqn:Ep.
  - destruct (el_find_element label ancestor_xpath) as [c'|x] eqn:Ea.
    + intros H. inversion H; subst. exists p, label. now repeat split; [left|..].
    + destruct (is_NoSuchElementException x); [|discriminate].
      intros H. destruct (IH H) as (p' & l' & Hin & H1 & H2).
      exists p', l'. split; [now right|now split].
  - destruct (is_NoSuchElementException x); [|discriminate].
    intros H. destruct (IH H) as (p' & l' & Hin & H1 & H2).
    exists p', l'. split; [now right|now split].
Qed.

Lemma first_container_none (d : webdriver) (patterns : list string) :
  (forall pattern, In pattern patterns ->
     exists x, drv_find_element d pattern = Raise x /\
               is_NoSuchElementException x = true) ->
  first_container d patterns = NoneLocated.
Proof.
  induction patterns as [|p patterns IH]; simpl; intros H; [reflexivity|].
  destruct (H p (or_introl eq_refl)) as (x & -> & ->). apply IH.
  intros pattern Hin. apply H. now right.
Qed.

(** X5.  [find_field_by_text] never raises and sends no command: it tries
    the four patterns built from the question text in order, passes over a
    pattern whose label or whose ancestor container is not found, and stops
    without a container, after one printed line, at the first lookup that
    raises another exception.  A container it returns is the ancestor
    container of a label found by one of the four patterns; when no pattern
    finds a label the result is none, without any event. *)
Theorem find_field_by_text_resolves (d : webdriver) (text : string) :
  find_field_by_text d text
  = container_outcome text (first_container d (field_patterns text)) /\
  (forall w c, find_field_by_text d text = (w, Return (Some c)) ->
     w = [] /\
     exists pattern label, In pattern (field_patterns text) /\
       drv_find_element d pattern = Return label /\
       el_find_element label ancestor_xpath = Return c) /\
  ((forall pattern, In pattern (field_patterns text) ->
      exists x, drv_find_element d pattern = Raise x /\
                is_NoSuchElementException x = true) ->
   find_field_by_text d text = ([], Return None)).
Proof.
  split; [apply find_field_by_text_outcome|]. split.
  - intros w c. rewrite find_field_by_text_outcome.
    destruct (first_container d (field_patterns text)) as [|c'|e] eqn:E;
      cbn [container_outcome]; intros H; inversion H; subst.
    split; [reflexivity|]. exact (first_container_Located _ _ _ E).
  - intros H. rewrite find_field_by_text_outcome, first_container_none by exact H.
    reflexivity.
Qed.

Lemma container_of_name_question :
  find_field_by_text (Examples.form_page Examples.plain_text (Return tt))
    Examples.name_question
  = ([], Return (Some Examples.plain_text)) /\
  exists pattern label,
    In pattern (field_patterns Examples.name_question) /\
    drv_find_element (Examples.form_page Examples.plain_text (Return tt)) pattern
    = Return label /\
    el_find_element label ancestor_xpath = Return Examples.plain_text.
Proof.
  split; [reflexivity|].
  destruct (find_field_by_text_resolves
              (Examples.form_page Examples.plain_text (Return tt))
              Examples.name_question) as (_ & Hsome & _).
  destruct (Hsome [] Examples.plain_text eq_refl) as [_ H]. exact H.
Defined.

(** ** The body of the loop *)

Section PassMore.
Context `{model : SentenceTransformer}.

Lemma strategy_for_returns ty d c v : returns (strategy_for ty d c v).
Proof.
  unfold strategy_for.
  destruct (String.eqb ty "date"); [apply fill_date_field_returns|].
  destruct (String.eqb ty "radio"); [apply fill_radio_field_returns|].
  destruct (String.eqb ty "dropdown"); [apply fill_dropdown_field_returns|].
  apply fill_text_field_returns.
Qed.

(** The body of the loop once a field is matched and its value found. *)
Lemma process_question_matched (self : SemanticFormFiller) d q f v :
  find_best_match self q default_threshold = Return (Some f) ->
  f <> "" ->
  dict_get (form_data self) f = Return v ->
  process_question self d q
  = (print (nl ++ "Processing question: " ++ q) ;;
     print ("Matched with field: " ++ f) ;;
     field_container <- find_field_by_text d q ;;
     match field_container with
     | Some field_container =>
         field_type <- get_field_type field_container ;;
         print ("Field type: " ++ field_type) ;;
         execute_script d "arguments[0].scrollIntoView(true);"
           [ArgElement (el_id field_container)] ;;
         sleep 500 ;;
         success <- strategy_for field_type d field_container v ;;
         emit (fill_report success v) ;;
         sleep 500
     | None => print ("Could not find input field for question: " ++ q)
     end).
Proof.
  intros Hm Hf Hv. unfold process_question. rewrite Hm.
  assert (truthy (Some f) = Some f) as Ht by (destruct f; [congruence|reflexivity]).
  apply bind_ext. intros _. rewrite bind_lift_Return, Ht.
  apply bind_ext. intros _. rewrite Hv, bind_lift_Return.
  apply bind_ext. intros [c|]; [|reflexivity].
  apply bind_ext. intros ty. apply bind_ext. intros _. apply bind_ext. intros _.
  apply bind_ext. intros _.
  replace (strategy_for ty d c v) with
    (if String.eqb ty "date" then fill_date_field d c v
     else if String.eqb ty "radio" then fill_radio_field d c v
     else if String.eqb ty "dropdown" then fill_dropdown_field d c v
     else fill_text_field d c v).
  - apply bind_ext. intros [|]; reflexivity.
  - unfold strategy_for. destruct (String.eqb ty "date"); [reflexivity|].
    destruct (String.eqb ty "radio"); [reflexivity|].
    destruct (String.eqb ty "dropdown"); reflexivity.
Qed.

(** X6.  For a question matched with a field of value [v]: when no
    container is found, the body of the loop reports it and sends no
    command; when a container is found, it prints the widget type, scrolls
    to the container, and an exception of the scroll script leaves the body
    before any fill; otherwise it runs the strategy of the widget type on
    the container with the value [v] (the date, radio and dropdown
    strategies for these types, the text strategy for every other type,
    checkbox and textarea included), reports its result and returns. *)
Theorem process_question_dispatch (self : SemanticFormFiller) (d : webdriver)
    (q f v : string) :
  find_best_match self q default_threshold = Return (Some f) ->
  f <> "" ->
  dict_get (form_data self) f = Return v ->
  let opening :=
    [Print (nl ++ "Processing question: " ++ q); Print ("Matched with field: " ++ f)] in
  (forall w1,
     find_field_by_text d q = (w1, Return None) ->
     process_question self d q
     = (app opening
          (app w1 [Print ("Could not find input field for question: " ++ q)]),
        Return tt)) /\
  (forall w1 c x,
     find_field_by_text d q = (w1, Return (Some c)) ->
     drv_execute_script d scroll_script [ArgElement (el_id c)] = Raise x ->
     process_question self d q
     = (app opening
          (app w1
             [Print ("Field type: " ++ classify_by_priority c markers);
              ExecuteScript scroll_script [ArgElement (el_id c)]]),
        Raise x)) /\
  (forall w1 c w ok,
     find_field_by_text d q = (w1, Return (Some c)) ->
     drv_execute_script d scroll_script [ArgElement (el_id c)] = Return tt ->
     strategy_for (classify_by_priority c markers) d c v = (w, Return ok) ->
     process_question self d q
     = (app opening
          (app w1
             (app [Print ("Field type: " ++ classify_by_priority c markers);
                   ExecuteScript scroll_script [ArgElement (el_id c)];
                   Sleep 500]
                (app w [fill_report ok v; Sleep 500]))),
        Return tt)).
Proof.
  intros Hm Hf Hv opening. subst opening.
  rewrite (process_question_matched self d q f v Hm Hf Hv).
  unfold print at 1 2. rewrite !bind_emit.
  split; [|split].
  - intros w1 Hc. rewrite Hc, bind_Return. reflexivity.
  - intros w1 c x Hc Hs. rewrite Hc, bind_Return, get_field_type_classify.
    rewrite bind_nil_Return. unfold print, execute_script, scroll_script in *.
    rewrite Hs. reflexivity.
  - intros w1 c w ok Hc Hs Hw. rewrite Hc, bind_Return, get_field_type_classify.
    rewrite bind_nil_Return. unfold print, execute_script, sleep, scroll_script in *.
    rewrite Hs, Hw. cbn [bind emit lift app fst snd]. reflexivity.
Qed.

Lemma process_question_unmatched (self : SemanticFormFiller) d q r :
  find_best_match self q default_threshold = Return r ->
  truthy r = None ->
  process_question self d q
  = ([Print (nl ++ "Processing question: " ++ q);
      Print ("No matching field found for question: " ++ q)], Return tt).
Proof.
  intros Hm Ht. unfold process_question. rewrite Hm.
  unfold print at 1. rewrite bind_emit, bind_lift_Return, Ht. reflexivity.
Qed.

Lemma process_question_raises (self : SemanticFormFiller) d q e :
  find_best_match self q default_threshold = Raise e ->
  process_question self d q
  = ([Print (nl ++ "Processing question: " ++ q)], Raise e).
Proof.
  intros Hm. unfold process_question. rewrite Hm. reflexivity.
Qed.


(** X8.  A field whose name is the empty string is never used: even when
    it is the best match of the question, at or above the threshold, the
    test [if best_match:] fails and the question is skipped like an
    unmatched one. *)
Theorem empty_field_name_is_skipped (pre post : dict string) (v q : string)
    (d : webdriver) :
  NoDup (keys (pre ++ ("", v) :: post)%list) ->
  (forall g, In g (keys pre) -> (similarity q g < similarity q "")%Q) ->
  (forall g, In g (keys post) -> (similarity q g <= similarity q "")%Q) ->
  (1 # 2 <= similarity q "")%Q ->
  find_best_match (init (pre ++ ("", v) :: post)%list) q default_threshold
  = Return (Some "") /\
  process_question (init (pre ++ ("", v) :: post)%list) d q
  = ([Print (nl ++ "Processing question: " ++ q);
      Print ("No matching field found for question: " ++ q)], Return tt).
Proof.
  intros Hnd Hpre Hpost Hhigh.
  assert (Hm : find_best_match (init (pre ++ ("", v) :: post)%list) q default_threshold
               = Return (Some "")).
  { unfold find_best_match. rewrite (best_item_first pre post "" v q Hnd Hpre Hpost).
    cbn [snd fst]. unfold default_threshold.
    apply Qle_bool_iff in Hhigh. now rewrite Hhigh. }
  split; [exact Hm|]. now apply (process_question_unmatched _ d q (Some "")).
Qed.

(** ** The end of the pass *)

Lemma for_aborts {A} (done rest : list A) (x : A) (body : A -> M unit)
    (wx : list event) (e : exn) :
  (forall y, In y done -> returns (body y)) ->
  body x = (wx, Raise e) ->
  for_ (done ++ x :: rest)%list body
  = (app (flat_map (fun y => fst (body y)) done) wx, Raise e).
Proof.
  intros Hd Hx. induction done as [|y done IH]; cbn [for_ app flat_map].
  - rewrite Hx. reflexivity.
  - destruct (returns_unit _ (Hd y (or_introl eq_refl))) as [wy Hy].
    rewrite Hy, bind_Return, IH by (intros z Hz; apply Hd; now right).
    cbn [fst snd]. now rewrite app_assoc.
Qed.

(** The pass, given the questions discovered and the run of the loop. *)
Lemma fill_form_body (self : SemanticFormFiller) d stdin wd questions wl rl :
  get_form_questions d = (wd, Return questions) ->
  for_ questions (process_question self d) = (wl, rl) ->
  fill_form self d stdin
  = match rl with
    | Return _ =>
        (app (pass_header wd (List.length questions)) (app wl (pass_footer stdin)),
         Return tt)
    | Raise e =>
        (app (pass_header wd (List.length questions))
           (app wl [Print ("Error filling form: " ++ str_exn e); Sleep 2000]),
         Return tt)
    end.
Proof.
  intros Hq Hl. unfold fill_form. rewrite Hq.
  cbv beta iota zeta delta [bind print sleep emit]. rewrite Hl.
  unfold pass_header, pass_footer, input, print, sleep, emit, lift, bind, ret,
    try_except, try_except_on, try_finally.
  destruct rl as [[]|e]; [destruct stdin as [line|x]|]; simpl;
    repeat rewrite <- app_assoc; simpl; repeat rewrite <- app_assoc; reflexivity.
Qed.

(** X9.  When no question is discovered, the pass sends no command for any
    field: it prints that it found 0 questions, then the closing lines, asks
    for the confirmation and sleeps, for every profile, the empty one
    included. *)
Theorem fill_form_without_questions (self : SemanticFormFiller) (d : webdriver)
    (stdin : result string) (wd : list event) :
  get_form_questions d = (wd, Return []) ->
  fill_form self d stdin = (app (pass_header wd 0) (pass_footer stdin), Return tt).
Proof.
  intros Hq. rewrite (fill_form_body self d stdin wd [] [] (Return tt) Hq eq_refl).
  reflexivity.
Qed.

(** X10.  When the body of the loop raises on a question, the questions
    before it have been processed, the questions after it are not
    processed, the closing lines and the confirmation prompt are skipped,
    the exception is printed, and the pass sleeps and returns. *)
Theorem fill_form_aborts (self : SemanticFormFiller) (d : webdriver)
    (stdin : result string) (wd : list event) (done rest : list string) (q : string)
    (wq : list event) (e : exn) :
  get_form_questions d = (wd, Return (done ++ q :: rest)%list) ->
  (forall q', In q' done -> returns (process_question self d q')) ->
  process_question self d q = (wq, Raise e) ->
  fill_form self d stdin
  = (app (pass_header wd (List.length (done ++ q :: rest)%list))
       (app (flat_map (fun q' => fst (process_question self d q')) done)
          (app wq [Print ("Error filling form: " ++ str_exn e); Sleep 2000])),
     Return tt).
Proof.
  intros Hq Hd Hx.
  rewrite (fill_form_body self d stdin wd _ _ _ Hq (for_aborts done rest q _ wq e Hd Hx)).
  now rewrite <- app_assoc.
Qed.

(** X11.  With an empty profile and at least one question, the pass stops
    at the first question: the matcher raises [ValueError], which is
    printed by the handler of the pass; no command is sent for any field
    and the confirmation is not asked. *)
Theorem empty_profile_aborts_pass (d : webdriver) (stdin : result string)
    (wd : list event) (q : string) (rest : list string) :
  get_form_questions d = (wd, Return (q :: rest)) ->
  fill_form (init []) d stdin
  = (app (pass_header wd (S (List.length rest)))
       [Print (nl ++ "Processing question: " ++ q);
        Print "Error filling form: max() arg is an empty sequence";
        Sleep 2000],
     Return tt).
Proof.
  intros Hq.
  rewrite (fill_form_body (init []) d stdin wd (q :: rest)
             [Print (nl ++ "Processing question: " ++ q)]
             (Raise (Exn ValueError "max() arg is an empty sequence")) Hq).
  - reflexivity.
  - cbn [for_]. rewrite (process_question_raises (init []) d q _ eq_refl). reflexivity.
Qed.

Lemma bind_returns_inv {A B} (m : M A) (f : A -> M B) w b :
  bind m f = (w, Return b) ->
  exists w1 a w2, m = (w1, Return a) /\ f a = (w2, Return b) /\ w = (w1 ++ w2)%list.
Proof.
  destruct m as [w1 [a|e]]; simpl; [|discriminate].
  destruct (f a) as [w2 r] eqn:Ef. intros H. inversion H; subst.
  now exists w1, a, w2.
Qed.

Lemma bind_ends {A B} (m : M A) (f : A -> M B) w b (ev : event) :
  bind m f = (w, Return b) ->
  (forall a w2, f a = (w2, Return b) -> exists w0, w2 = app w0 [ev]) ->
  exists w0, w = app w0 [ev].
Proof.
  intros H Hf. apply bind_returns_inv in H. destruct H as (w1 & a & w2 & _ & E2 & ->).
  destruct (Hf a w2 E2) as [w0 ->]. exists (app w1 w0). now rewrite app_assoc.
Qed.

(** X12.  For every filler, page and console, [fill_form] returns and its
    last event is the final sleep; what precedes it ends either with the
    confirmation read from the console, or with the line that reports the
    exception that ended the pass. *)
Theorem fill_form_ends (self : SemanticFormFiller) (d : webdriver)
    (stdin : result string) :
  exists w,
    fill_form self d stdin = (app w [Sleep 2000], Return tt) /\
    ((exists w0, w = app w0 [Input]) \/
     (exists w0 e, w = app w0 [Print ("Error filling form: " ++ str_exn e)])).
Proof.
  unfold fill_form.
  match goal with |- context [try_except ?m ?h] => destruct m as [wb [[]|e]] eqn:Eb end.
  - exists wb. split; [reflexivity|]. left.
    do 8 (apply (bind_ends _ _ _ _ _ Eb); clear Eb wb; intros ? wb Eb).
    unfold input, emit, lift, bind, ret in Eb. destruct stdin as [line|x]; [|discriminate].
    inversion Eb. now exists [].
  - exists (app wb [Print ("Error filling form: " ++ str_exn e)]).
    split; [reflexivity|]. right. now exists wb, e.
Qed.

End PassMore.

(** The name question on the sample form: the text strategy writes the
    value of the field Full Name. *)
Lemma name_question_goes_to_text_strategy :
  @find_best_match Examples.sample_model Examples.sample_filler
    Examples.name_question default_threshold = Return (Some "Full Name") /\
  dict_get Examples.sample_profile "Full Name" = Return "Ada Lovelace" /\
  @process_question Examples.sample_model Examples.sample_filler
    (Examples.form_page Examples.plain_text (Return tt)) Examples.name_question
  = ([Print (nl ++ "Processing question: What is your full name?");
      Print "Matched with field: Full Name";
      Print "Field type: text";
      ExecuteScript scroll_script [ArgElement 60];
      Sleep 500;
      Clear 61; SendKeys 61 "Ada Lovelace";
      Print "Successfully filled with: Ada Lovelace";
      Sleep 500],
     Return tt).
Proof.
  split; [reflexivity|]. split; [reflexivity|].
  destruct (@process_question_dispatch Examples.sample_model Examples.sample_filler
              (Examples.form_page Examples.plain_text (Return tt))
              Examples.name_question "Full Name" "Ada Lovelace")
    as (_ & _ & Hfill).
  - reflexivity.
  - discriminate.
  - reflexivity.
  - apply (Hfill [] Examples.plain_text [Clear 61; SendKeys 61 "Ada Lovelace"] true);
      reflexivity.
Defined.

(** A container classified as a checkbox is handed to the text strategy,
    which finds no input in it. *)
Example checkbox_goes_to_text_strategy :
  get_field_type Examples.consent_box = ([], Return "checkbox") /\
  @strategy_for Examples.sample_model "checkbox" Examples.blank_driver
    Examples.consent_box "yes"
  = fill_text_field Examples.blank_driver Examples.consent_box "yes" /\
  fill_text_field Examples.blank_driver Examples.consent_box "yes"
  = ([], Return false).
Proof. repeat split; reflexivity. Qed.


(** The field with the empty name is the best match, at 0.95, and the
    question is skipped all the same. *)
Lemma nameless_field_is_skipped :
  NoDup (keys Examples.nameless_profile) /\
  (1 # 2 <= @similarity Examples.tie_model "Your name?" "")%Q /\
  @find_best_match Examples.tie_model
    (@init Examples.tie_model Examples.nameless_profile) "Your name?" default_threshold
  = Return (Some "") /\
  @process_question Examples.tie_model
    (@init Examples.tie_model Examples.nameless_profile) Examples.blank_driver
    "Your name?"
  = ([Print (nl ++ "Processing question: Your name?");
      Print "No matching field found for question: Your name?"], Return tt).
Proof.
  assert (Hnd : NoDup (keys Examples.nameless_profile)).
  { repeat constructor; simpl; intuition discriminate. }
  assert (Hhigh : (1 # 2 <= @similarity Examples.tie_model "Your name?" "")%Q).
  { discriminate. }
  split; [exact Hnd|]. split; [exact Hhigh|].
  refine (@empty_field_name_is_skipped Examples.tie_model [("Name", "Ada")] []
            "nobody" "Your name?" Examples.blank_driver Hnd _ _ Hhigh).
  - intros g [<-|[]]. reflexivity.
  - intros g [].
Defined.

Lemma blank_page_pass :
  get_form_questions Examples.blank_driver = ([], Return []) /\
  @fill_form Examples.sample_model (@init Examples.sample_model [])
    Examples.blank_driver (Return "")
  = (app (pass_header [] 0) (pass_footer (Return "")), Return tt).
Proof.
  split; [reflexivity|].
  apply (@fill_form_without_questions Examples.sample_model). reflexivity.
Defined.

Lemma scroll_failure_skips_the_rest :
  get_form_questions
    (Examples.form_page Examples.plain_text
       (Raise (Exn JavascriptException "javascript error")))
  = ([], Return [Examples.name_question; Examples.color_question]) /\
  @fill_form Examples.sample_model Examples.sample_filler
    (Examples.form_page Examples.plain_text
       (Raise (Exn JavascriptException "javascript error")))
    (Return "")
  = (app (pass_header [] 2)
       [Print (nl ++ "Processing question: What is your full name?");
        Print "Matched with field: Full Name";
        Print "Field type: text";
        ExecuteScript "arguments[0].scrollIntoView(true);" [ArgElement 60];
        Print "Error filling form: javascript error";
        Sleep 2000],
     Return tt).
Proof.
  split; [reflexivity|].
  apply (@fill_form_aborts Examples.sample_model Examples.sample_filler
           (Examples.form_page Examples.plain_text
              (Raise (Exn JavascriptException "javascript error")))
           (Return "") [] [] [Examples.color_question] Examples.name_question
           [Print (nl ++ "Processing question: What is your full name?");
            Print "Matched with field: Full Name";
            Print "Field type: text";
            ExecuteScript "arguments[0].scrollIntoView(true);" [ArgElement 60]]
           (Exn JavascriptException "javascript error")).
  - reflexivity.
  - intros q' [].
  - reflexivity.
Defined.

Lemma empty_profile_on_sample_form :
  get_form_questions (Examples.form_page Examples.plain_text (Return tt))
  = ([], Return [Examples.name_question; Examples.color_question]) /\
  @fill_form Examples.sample_model (@init Examples.sample_model [])
    (Examples.form_page Examples.plain_text (Return tt)) (Return "")
  = (app (pass_header [] 2)
       [Print (nl ++ "Processing question: What is your full name?");
        Print "Error filling form: max() arg is an empty sequence";
        Sleep 2000],
     Return tt).
Proof.
  split; [reflexivity|].
  apply (@empty_profile_aborts_pass Examples.sample_model
           (Examples.form_page Examples.plain_text (Return tt)) (Return "") []
           Examples.name_question [Examples.color_question]).
  reflexivity.
Defined.

(** ** Clicks of the choice strategies *)

Section ChoiceMore.
Context `{model : SentenceTransformer}.

Lemma best_above_floor_In v options o :
  best_above_floor v options = Some o -> In o options.
Proof.
  unfold best_above_floor.
  destruct (best_from_spec v options (None, 0%Q)) as (_ & _ & Hb).
  destruct (best_from v (None, 0%Q) options) as [[o'|] s]; [|discriminate].
  destruct (Qgt_bool s (1 # 2)); [|discriminate].
  intros H. inversion H; subst.
  destruct Hb as [Hb|(o'' & Hin & Hb)]; [discriminate|]. now inversion Hb; subst.
Qed.

Lemma select_by_stages_In v options o :
  select_by_stages v options = Some o -> In o options.
Proof.
  unfold select_by_stages.
  destruct (find (equals_ignoring_case v) options) as [o1|] eqn:E1.
  { intros H. inversion H; subst. now apply find_some in E1. }
  destruct (find (contains_ignoring_case v) options) as [o2|] eqn:E2.
  { intros H. inversion H; subst. now apply find_some in E2. }
  destruct (find (confident v) options) as [o3|] eqn:E3.
  { intros H. inversion H; subst. now apply find_some in E3. }
  apply best_above_floor_In.
Qed.

(** X13.  A choice strategy presented readable options clicks at most one
    of them and nothing else (besides the opener of the dropdown): either
    no option is clicked and the result is false, or exactly one option of
    the list is clicked, and the result is true exactly when that click
    does not raise.  With no option at all the result is false. *)
Theorem choice_clicks_one_option d e v prefix label options run :
  choice_run d e v prefix label options run ->
  Forall readable options ->
  (options = [] -> run = after prefix ([], Return false)) /\
  ((run = after prefix ([], Return false) /\ clicks (fst run) = clicks prefix) \/
   (exists o, In o options /\
      run = after prefix (select_outcome label (Some o)) /\
      clicks (fst run) = app (clicks prefix) [el_id o] /\
      (snd run = Return true <-> el_click o = Return tt))).
Proof.
  intros Hrun Hr. rewrite (choice_run_stages _ _ _ _ _ _ _ Hrun Hr).
  split; [intros ->; reflexivity|].
  destruct (select_by_stages v options) as [o|] eqn:Es.
  - right. exists o. split; [now apply select_by_stages_In in Es|].
    split; [reflexivity|]. unfold after, select_outcome, clicks.
    destruct (el_click o) as [[]|x]; cbn [fst snd]; rewrite flat_map_app; split;
      try reflexivity; split; congruence.
  - left. split; [reflexivity|]. unfold after, clicks. cbn [fst select_outcome].
    now rewrite app_nil_r.
Qed.

Lemma lower_empty (s : string) : Str.lower s = "" <-> s = "".
Proof. destruct s; simpl; split; congruence. Qed.

Lemma contains_empty (s : string) : Str.contains "" s = true.
Proof. destruct s; reflexivity. Qed.

(** X14.  An empty value always selects an option: it is contained in the
    text of every option, so when at least one readable option is
    presented an option is clicked, and it is the first option unless some
    option has an empty text (which then matches exactly). *)
Theorem empty_value_selects d e prefix label o options run :
  choice_run d e "" prefix label (o :: options) run ->
  Forall readable (o :: options) ->
  exists o', In o' (o :: options) /\
    run = after prefix (select_outcome label (Some o')) /\
    ((forall o'', In o'' (o :: options) -> option_text o'' <> "") -> o' = o).
Proof.
  intros Hrun Hr. rewrite (choice_run_stages _ _ _ _ _ _ _ Hrun Hr).
  unfold select_by_stages.
  destruct (find (equals_ignoring_case "") (o :: options)) as [o1|] eqn:E1.
  - exists o1. apply find_some in E1. destruct E1 as [Hin He].
    split; [exact Hin|]. split; [reflexivity|]. intros Hne. exfalso.
    apply (Hne o1 Hin). unfold equals_ignoring_case in He. apply String.eqb_eq in He.
    apply lower_empty. now rewrite <- He.
  - assert (Hc : contains_ignoring_case "" o = true).
    { unfold contains_ignoring_case. cbn [Str.lower]. now rewrite contains_empty. }
    cbn [find]. rewrite Hc. exists o. split; [now left|]. split; reflexivity.
Qed.

End ChoiceMore.

Example colors_clicks : clicks (fst Examples.colors_fill) = [13].
Proof. reflexivity. Qed.

Lemma one_click_on_colors :
  @choice_run Examples.sample_model Examples.blank_driver Examples.color_radio "Red"
    [] "radio" Examples.color_options Examples.colors_fill /\
  Forall readable Examples.color_options /\
  ((Examples.color_options = [] -> Examples.colors_fill = after [] ([], Return false)) /\
   ((Examples.colors_fill = after [] ([], Return false) /\
     clicks (fst Examples.colors_fill) = clicks []) \/
    (exists o, In o Examples.color_options /\
       Examples.colors_fill = after [] (select_outcome "radio" (Some o)) /\
       clicks (fst Examples.colors_fill) = app (clicks []) [el_id o] /\
       (snd Examples.colors_fill = Return true <-> el_click o = Return tt)))).
Proof.
  assert (Hrun : @choice_run Examples.sample_model Examples.blank_driver
                   Examples.color_radio "Red" [] "radio" Examples.color_options
                   Examples.colors_fill).
  { constructor. reflexivity. }
  assert (Hr : Forall readable Examples.color_options).
  { repeat constructor; eexists; reflexivity. }
  split; [exact Hrun|]. split; [exact Hr|].
  exact (@choice_clicks_one_option Examples.sample_model _ _ _ _ _ _ _ Hrun Hr).
Defined.

(** The empty value on the colors Crimson, Reddish, RED: the first option
    is clicked. *)
Lemma empty_value_on_colors :
  @choice_run Examples.sample_model Examples.blank_driver Examples.color_radio ""
    [] "radio" Examples.color_options
    (@fill_radio_field Examples.sample_model Examples.blank_driver
       Examples.color_radio "") /\
  Forall readable Examples.color_options /\
  @fill_radio_field Examples.sample_model Examples.blank_driver Examples.color_radio ""
  = ([Click 11], Return true).
Proof.
  assert (Hrun : @choice_run Examples.sample_model Examples.blank_driver
                   Examples.color_radio "" [] "radio" Examples.color_options
                   (@fill_radio_field Examples.sample_model Examples.blank_driver
                      Examples.color_radio "")).
  { constructor. reflexivity. }
  assert (Hr : Forall readable Examples.color_options).
  { repeat constructor; eexists; reflexivity. }
  split; [exact Hrun|]. split; [exact Hr|].
  destruct (@empty_value_selects Examples.sample_model _ _ _ _ _ _ _ Hrun Hr)
    as (o' & _ & Heq & Hfirst).
  rewrite Heq, Hfirst; [reflexivity|].
  intros o'' [<-|[<-|[<-|[]]]]; discriminate.
Defined.

(** ** Dates accepted and rejected *)

Module DateMore.
Import Date DateFacts.

Lemma match_m_plain (m : nat) (rest : string) :
  1 <= m <= 12 ->
  match_m (Str.of_nat m ++ "/" ++ rest) = Some (m, "/" ++ rest).
Proof.
  intros [H1 H2].
  do 13 (destruct m as [|m]; [first [lia | reflexivity]|]). lia.
Qed.

Lemma match_d_plain (d : nat) (rest : string) :
  1 <= d <= 31 ->
  match_d (Str.of_nat d ++ "/" ++ rest) = Some (d, "/" ++ rest).
Proof.
  intros [H1 H2].
  do 32 (destruct d as [|d]; [first [lia | reflexivity]|]). lia.
Qed.

Lemma strptime_plain (y m d : nat) :
  valid_date y m d ->
  strptime (month_day_year_plain y m d) = Return {| year := y; month := m; day := d |}.
Proof.
  intros (Hy & Hm & Hd). unfold strptime, month_day_year_plain.
  rewrite match_m_plain by exact Hm. rewrite match_slash_cons.
  rewrite match_d_plain by (pose proof (days_in_month_le y m); lia).
  rewrite match_slash_cons.
  rewrite match_Y_four_digits by lia.
  destruct (Nat.eqb_spec y 0) as [->|_]; [lia|].
  destruct (Nat.leb_spec d (days_in_month y m)); [reflexivity|lia].
Qed.



Lemma digits_length (f n : nat) (acc : string) :
  String.length acc <= String.length (Str.digits f n acc).
Proof.
  revert n acc. induction f as [|f IH]; intros n acc; cbn [Str.digits]; [lia|].
  destruct (n <? 10)%nat; [cbn [String.length]; lia|].
  specialize (IH (n / 10) (String (Str.digit n) acc)). cbn [String.length] in IH. lia.
Qed.

Lemma of_nat_length (k n : nat) (acc : string) :
  10 ^ k <= n ->
  S k + String.length acc <= String.length (Str.digits (S n) n acc).
Proof.
  revert n acc. induction k as [|k IH]; intros n acc Hn.
  - pose proof (digits_length n (n / 10) (String (Str.digit n) acc)) as H.
    cbn [Str.digits]. destruct (n <? 10)%nat; cbn [String.length] in *; lia.
  - assert (H10 : 10 <= n).
    { pose proof (Nat.pow_nonzero 10 k ltac:(lia)). rewrite Nat.pow_succ_r' in Hn. lia. }
    rewrite digits_large by exact H10.
    assert (Hk : 10 ^ k <= n / 10).
    { apply Nat.div_le_lower_bound; [lia|]. now rewrite <- Nat.pow_succ_r'. }
    specialize (IH (n / 10) (String (Str.digit n) acc) Hk).
    cbn [String.length] in IH. lia.
Qed.

Lemma zfill_year (y : nat) : 1000 <= y -> Str.zfill 4 (Str.of_nat y) = Str.of_nat y.
Proof.
  intros Hy. unfold Str.zfill.
  pose proof (of_nat_length 3 y "" Hy) as H. fold (Str.of_nat y) in H.
  replace (4 - String.length (Str.of_nat y)) with 0 by lia. reflexivity.
Qed.

Lemma year_month_day_four_digits (y m d : nat) :
  1000 <= y -> year_month_day y m d = yyyy_mm_dd y m d.
Proof. intros Hy. unfold year_month_day, yyyy_mm_dd. now rewrite zfill_year. Qed.

Lemma of_nat_length_le (k n : nat) (acc : string) :
  n < 10 ^ S k ->
  String.length (Str.digits (S n) n acc) <= S k + String.length acc.
Proof.
  revert n acc. induction k as [|k IH]; intros n acc Hn.
  - rewrite digits_small by (cbn in Hn; lia). cbn [String.length]. lia.
  - destruct (Nat.lt_ge_cases n 10) as [Hlt|Hge].
    + rewrite digits_small by exact Hlt. cbn [String.length]. lia.
    + rewrite digits_large by exact Hge.
      assert (Hk : n / 10 < 10 ^ S k).
      { apply Nat.Div0.div_lt_upper_bound. now rewrite <- Nat.pow_succ_r'. }
      specialize (IH (n / 10) (String (Str.digit n) acc) Hk).
      cbn [String.length] in IH. lia.
Qed.

Lemma zfill_two_length (n : nat) : n <= 31 -> String.length (Str.zfill 2 (Str.of_nat n)) = 2.
Proof.
  intros H. do 32 (destruct n as [|n]; [reflexivity|]). lia.
Qed.

Lemma length_append (s1 s2 : string) :
  String.length (s1 ++ s2) = String.length s1 + String.length s2.
Proof. induction s1 as [|c s1 IH]; cbn [append String.length]; [reflexivity|now rewrite IH]. Qed.

Lemma year_month_day_short (y m d : nat) :
  y < 1000 -> m <= 12 -> d <= 31 -> String.length (year_month_day y m d) < 10.
Proof.
  intros Hy Hm Hd. unfold year_month_day.
  rewrite !length_append, !zfill_two_length by lia.
  pose proof (of_nat_length_le 2 y "" Hy) as H. fold (Str.of_nat y) in H.
  cbn [String.length] in *. lia.
Qed.

(** X15.  For every calendar date with a year from 1 to 9999, written
    MM/DD/YYYY or without the leading zeros of month and day, on a date
    input that is found, cleared and accepts the typed value, the date
    strategy sends exactly two commands, the clearing and the typing of
    year-month-day, and returns true.  The year is typed without padding:
    the value is YYYY-MM-DD for the years from 1000 on, and has fewer than
    ten characters for the years before. *)
Theorem fill_date_field_types_date (driver : webdriver) (container date_input : element)
    (y m d : nat) (date_str : string) :
  valid_date y m d ->
  date_str = month_day_year y m d \/ date_str = month_day_year_plain y m d ->
  el_find_element container ".//input[@type='date']" = Return date_input ->
  el_clear date_input = Return tt ->
  el_send_keys date_input (year_month_day y m d) = Return tt ->
  fill_date_field driver container date_str
  = ([Clear (el_id date_input); SendKeys (el_id date_input) (year_month_day y m d)],
     Return true) /\
  (1000 <= y -> year_month_day y m d = yyyy_mm_dd y m d) /\
  (y < 1000 -> String.length (year_month_day y m d) < 10).
Proof.
  intros Hv Hs Hfind Hclear Hsend. split.
  2:{ split; [apply year_month_day_four_digits|]. intros Hy.
      destruct Hv as (_ & Hm & Hd). pose proof (days_in_month_le y m).
      apply year_month_day_short; lia. }
  assert (Hparse : strptime date_str = Return {| year := y; month := m; day := d |}).
  { destruct Hs as [-> | ->].
    - destruct Hv as (Hy & Hm & Hd). now apply strptime_month_day_year.
    - now apply strptime_plain. }
  unfold fill_date_field, find_element, clear, send_keys.
  rewrite Hparse. cbn [bind lift]. rewrite Hfind. cbn [bind lift]. rewrite Hclear.
  change (strftime {| year := y; month := m; day := d |}) with (year_month_day y m d).
  generalize dependent (year_month_day y m d). intros f Hsend.
  cbn [bind emit lift app]. rewrite Hsend. reflexivity.
Qed.


Lemma in_range_val (lo hi : nat) (c : ascii) :
  in_range lo hi c = true -> 48 <= lo -> lo - 48 <= val c <= hi - 48.
Proof.
  unfold in_range, val. intros H Hlo. apply andb_true_iff in H. destruct H as [H1 H2].
  apply Nat.leb_le in H1, H2. lia.
Qed.

Ltac ranges :=
  repeat match goal with
  | H : _ && _ = true |- _ => apply andb_true_iff in H; destruct H
  | H : in_range _ _ _ = true |- _ => apply in_range_val in H; [|lia]
  | H : is_digit _ = true |- _ => apply in_range_val in H; [|lia]
  | H : is_digit_1_9 _ = true |- _ => apply in_range_val in H; [|lia]
  | H : Some _ = Some _ |- _ => inversion H; subst; clear H
  | H : None = Some _ |- _ => discriminate H
  end.

Lemma match_m_range (s rest : string) (m : nat) :
  match_m s = Some (m, rest) -> 1 <= m <= 12.
Proof.
  destruct s as [|a [|b r]]; cbn [match_m]; intros H.
  - discriminate.
  - destruct (is_digit_1_9 a) eqn:E; ranges; lia.
  - destruct (Ascii.eqb a "1" && in_range 48 50 b) eqn:E1; [ranges; lia|].
    destruct (Ascii.eqb a "0" && is_digit_1_9 b) eqn:E2; [ranges; lia|].
    destruct (is_digit_1_9 a) eqn:E3; ranges; lia.
Qed.

Lemma match_d_range (s rest : string) (d : nat) :
  match_d s = Some (d, rest) -> 1 <= d <= 31.
Proof.
  destruct s as [|a [|b r]]; cbn [match_d]; intros H.
  - discriminate.
  - destruct (is_digit_1_9 a) eqn:E; ranges; lia.
  - destruct (Ascii.eqb a "3" && in_range 48 49 b) eqn:E1; [ranges; lia|].
    destruct (in_range 49 50 a && is_digit b) eqn:E2; [ranges; lia|].
    destruct (Ascii.eqb a "0" && is_digit_1_9 b) eqn:E3; [ranges; lia|].
    destruct (is_digit_1_9 a) eqn:E4; [ranges; lia|].
    destruct (Ascii.eqb a " " && is_digit_1_9 b) eqn:E5; ranges; lia.
Qed.

Lemma match_Y_range (s rest : string) (y : nat) :
  match_Y s = Some (y, rest) -> y < 10 * 1000.
Proof.
  destruct s as [|a [|b [|c [|d r]]]]; cbn [match_Y]; intros H; try discriminate.
  destruct (is_digit a && is_digit b && is_digit c && is_digit d) eqn:E; ranges; lia.
Qed.

Lemma strptime_valid (s : string) (dt : datetime) :
  strptime s = Return dt -> valid_date (year dt) (month dt) (day dt).
Proof.
  unfold strptime.
  destruct (match_m s) as [[m s1]|] eqn:Em; [|discriminate].
  destruct (match_slash s1) as [s2|]; [|discriminate].
  destruct (match_d s2) as [[d s3]|] eqn:Ed; [|discriminate].
  destruct (match_slash s3) as [s4|]; [|discriminate].
  destruct (match_Y s4) as [[y [|c rest]]|] eqn:Ey; [|discriminate|discriminate].
  destruct (Nat.eqb_spec y 0) as [|Hy]; [discriminate|].
  destruct (Nat.leb_spec d (days_in_month y m)) as [Hd|]; [|discriminate].
  intros H. inversion H; subst; clear H. cbn [year month day].
  apply match_m_range in Em. apply match_d_range in Ed. apply match_Y_range in Ey.
  unfold valid_date. lia.
Qed.

(** X19.  The date strategy sends a command to the page only for a string
    that denotes a calendar date: whenever one of its events is a command,
    the string was parsed to a year from 1 to 9999, a month from 1 to 12
    and a day that exists in that month of that year. *)
Theorem date_commands_need_valid_date (driver : webdriver) (container : element)
    (date_str : string) (ev : event) :
  In ev (fst (fill_date_field driver container date_str)) ->
  is_command ev = true ->
  exists y m d,
    valid_date y m d /\
    strptime date_str = Return {| year := y; month := m; day := d |}.
Proof.
  intros Hin Hc. destruct (strptime date_str) as [dt|e] eqn:Es.
  - destruct dt as [y m d]. exists y, m, d. split; [|reflexivity].
    exact (strptime_valid _ _ Es).
  - unfold fill_date_field in Hin. rewrite Es in Hin. cbn in Hin.
    destruct Hin as [<-|[]]. discriminate Hc.
Qed.

End DateMore.

Lemma birth_date_is_typed :
  valid_date 1815 12 10 /\
  "12/10/1815" = month_day_year 1815 12 10 /\
  el_find_element Examples.open_date ".//input[@type='date']"
  = Return Examples.open_date_input /\
  fill_date_field Examples.blank_driver Examples.open_date "12/10/1815"
  = ([Clear 45; SendKeys 45 "1815-12-10"], Return true).
Proof.
  assert (Hv : valid_date 1815 12 10).
  { unfold valid_date. simpl. lia. }
  split; [exact Hv|]. split; [reflexivity|]. split; [reflexivity|].
  destruct (DateMore.fill_date_field_types_date Examples.blank_driver
              Examples.open_date Examples.open_date_input 1815 12 10 "12/10/1815" Hv)
    as [Htyped _]; first [left; reflexivity | reflexivity | exact Htyped].
Defined.

(** A year before 1000 is typed on fewer than four digits. *)
Example year_999_run :
  fill_date_field Examples.blank_driver Examples.open_date "01/01/0999"
  = ([Clear 45; SendKeys 45 "999-01-01"], Return true).
Proof. reflexivity. Qed.


Lemma clearing_needs_valid_date :
  In (Clear 45)
    (fst (fill_date_field Examples.blank_driver Examples.open_date "12/10/1815")) /\
  is_command (Clear 45) = true /\
  exists y m d,
    valid_date y m d /\
    Date.strptime "12/10/1815"
    = Return {| Date.year := y; Date.month := m; Date.day := d |}.
Proof.
  assert (Hin : In (Clear 45)
    (fst (fill_date_field Examples.blank_driver Examples.open_date "12/10/1815"))).
  { left. reflexivity. }
  split; [exact Hin|]. split; [reflexivity|].
  exact (DateMore.date_commands_need_valid_date _ _ _ _ Hin eq_refl).
Defined.

(** ** The run *)

Section RunMore.
Context `{model : SentenceTransformer}.
Variable webdriver_Chrome : list string -> result chrome.
Variable console : string -> result string.

Lemma setup_driver_outcome :
  setup_driver webdriver_Chrome
  = match webdriver_Chrome chrome_arguments with
    | Return driver => ([Start chrome_arguments], Return driver)
    | Raise e =>
        ([Start chrome_arguments;
          Pass (Print ("Error setting up Chrome driver: " ++ str_exn e));
          Pass (Print "Please make sure Chrome is installed on your system.")],
         Raise e)
    end.
Proof.
  unfold setup_driver, chrome_arguments. cbv zeta. unfold s_emit, s_bind, s_ret.
  destruct (webdriver_Chrome _) as [driver|e]; reflexivity.
Qed.

(** X17.  When the browser cannot be started, [setup_driver] prints the
    error and the hint and raises the exception again, and [run] lets it
    through: nothing is navigated, the operator is not asked to close the
    browser and [quit] is not called. *)
Theorem run_without_browser (self : SemanticFormFiller) (line : string) (e : exn) :
  console url_prompt = Return line ->
  webdriver_Chrome chrome_arguments = Raise e ->
  run webdriver_Chrome console self
  = ([Prompt url_prompt; Start chrome_arguments;
      Pass (Print ("Error setting up Chrome driver: " ++ str_exn e));
      Pass (Print "Please make sure Chrome is installed on your system.")],
     Raise e).
Proof.
  intros Hu Hc. unfold run, prompt. fold url_prompt. rewrite Hu.
  unfold s_emit at 1. cbn [s_bind]. rewrite setup_driver_outcome, Hc. reflexivity.
Qed.

(** X18.  Once the browser is started, [run] navigates to the URL typed by
    the operator, stripped; a navigation that raises is reported and the
    fill pass is not run; whatever the navigation and the pass do, the
    operator is then asked to close the browser, and [quit] is called
    exactly when that prompt returns: if reading the console raises, the
    browser is left open and the exception leaves [run]. *)
Theorem run_closes_browser (self : SemanticFormFiller) (line : string)
    (driver : chrome) :
  console url_prompt = Return line ->
  webdriver_Chrome chrome_arguments = Return driver ->
  run webdriver_Chrome console self
  = (app [Prompt url_prompt; Start chrome_arguments]
       (app (session_body console self driver (Str.strip line))
          (Prompt close_prompt ::
           match console close_prompt with
           | Return _ => [Quit]
           | Raise _ => []
           end)),
     match console close_prompt with
     | Return _ => chrome_quit driver
     | Raise e => Raise e
     end).
Proof.
  intros Hu Hc. unfold run, prompt. fold url_prompt close_prompt. rewrite Hu.
  unfold s_emit at 1. cbn [s_bind]. rewrite setup_driver_outcome, Hc.
  cbv zeta. cbn [s_bind app].
  destruct (fill_form_returns self (chrome_driver driver) (console "")) as [wf Hf].
  unfold session_body, s_print, s_emit, of_pass. rewrite Hf. cbn [fst snd].
  destruct (chrome_get driver (Str.strip line)) as [[]|x];
    destruct (console close_prompt) as [l|y];
    cbn [s_bind s_try_except s_try_finally app];
    try (destruct (chrome_quit driver) as [[]|z]);
    cbn [app]; rewrite ?app_nil_r, <- ?app_assoc; reflexivity.
Qed.

End RunMore.

Lemma chrome_missing_run :
  Examples.sample_console url_prompt = Return ("  " ++ Examples.form_url ++ " ") /\
  @run Examples.sample_model
    (fun _ => Raise (Exn WebDriverException "chrome not found"))
    Examples.sample_console Examples.sample_filler
  = ([Prompt url_prompt; Start chrome_arguments;
      Pass (Print "Error setting up Chrome driver: chrome not found");
      Pass (Print "Please make sure Chrome is installed on your system.")],
     Raise (Exn WebDriverException "chrome not found")).
Proof.
  split; [reflexivity|].
  exact (@run_without_browser Examples.sample_model
           (fun _ => Raise (Exn WebDriverException "chrome not found"))
           Examples.sample_console Examples.sample_filler
           ("  " ++ Examples.form_url ++ " ")
           (Exn WebDriverException "chrome not found") eq_refl eq_refl).
Defined.

(** The navigation fails: the pass is not run, the browser is closed. *)
Example failed_navigation_run :
  @run Examples.sample_model
    (fun _ => Return (Examples.sample_chrome
                        (Raise (Exn WebDriverException "net::ERR_NAME_NOT_RESOLVED"))))
    Examples.sample_console Examples.sample_filler
  = ([Prompt url_prompt; Start chrome_arguments;
      Pass (Print (nl ++ "Navigating to form URL: https://forms.example/f1"));
      Get "https://forms.example/f1";
      Pass (Print "An error occurred: net::ERR_NAME_NOT_RESOLVED");
      Prompt close_prompt; Quit],
     Return tt).
Proof. reflexivity. Qed.

(** The console is closed after the URL: the pass ends on [EOFError], the
    last prompt raises and the browser is not closed. *)
Lemma closed_console_leaves_browser_open :
  Examples.closed_console url_prompt = Return Examples.form_url /\
  Examples.closed_console close_prompt = Raise (Exn EOFError "EOF when reading a line") /\
  @run Examples.sample_model (fun _ => Return (Examples.sample_chrome (Return tt)))
    Examples.closed_console Examples.sample_filler
  = (app [Prompt url_prompt; Start chrome_arguments]
       (app (@session_body Examples.sample_model Examples.closed_console
               Examples.sample_filler (Examples.sample_chrome (Return tt))
               Examples.form_url)
          [Prompt close_prompt]),
     Raise (Exn EOFError "EOF when reading a line")).
Proof.
  split; [reflexivity|]. split; [reflexivity|].
  exact (@run_closes_browser Examples.sample_model
           (fun _ => Return (Examples.sample_chrome (Return tt)))
           Examples.closed_console Examples.sample_filler Examples.form_url
           (Examples.sample_chrome (Return tt)) eq_refl eq_refl).
Defined.
